(** * OllamaContentGenerator: a bridge from the generate-content vocabulary
      to an OpenAI-compatible chat-completions / embeddings backend.

    Shallow embedding of [packages/core/src/core/ollamaContentGenerator.ts].

    - JavaScript strings are sequences of UTF-16 code units ([list N]).
    - [String.prototype.split/trim/startsWith/slice], [Array.prototype.join]
      and [pop], and the UTF-8 [TextDecoder] are written out. What the
      generator calls and cannot be written out ([toUpperCase], [JSON.parse],
      [fetch]) is the class [Platform]; every statement holds for every
      platform.
    - The casts of a parsed body to an interface are taken at their word:
      a parsed value has the shape of the interface, with an option for each
      field the code tests for presence.
    - The [async] methods run in a small state-and-exception monad whose
      state is the backend plus the log of the requests sent so far.
    - The async generator returned by [generateContentStream] is the list of
      the values it yields while the body reader hands out its chunks. *)

From Stdlib Require Import List Arith NArith QArith_base Ascii Bool Lia.
From Stdlib Require String DecimalString DecimalN.
Import ListNotations String.StringSyntax.
Local Open Scope string_scope.
Close Scope Q_scope.
Local Open Scope list_scope.

Set Implicit Arguments.

(* ================================================================= *)
(** ** JavaScript strings and arrays *)

Module JS.

Definition codeunit := N.
Definition jsstring := list codeunit.

(** A string literal of the source, as code units. *)
Definition lit (s : String.string) : jsstring :=
  map N_of_ascii (String.list_ascii_of_string s).

Definition eqb (a b : jsstring) : bool :=
  if list_eq_dec N.eq_dec a b then true else false.

(** [ToBoolean] on a string: the empty string is falsy. *)
Definition truthy (s : jsstring) : bool :=
  match s with [] => false | _ :: _ => true end.

(** [x || d] where [x] is a string or [undefined]/[null]. *)
Definition or_else (x : option jsstring) (d : jsstring) : jsstring :=
  match x with
  | Some s => if truthy s then s else d
  | None => d
  end.

(** [x || d] where [x] is an array or [undefined]: every array is truthy. *)
Definition or_array {A} (x : option (list A)) (d : list A) : list A :=
  match x with Some l => l | None => d end.

(** [s.startsWith(p)] *)
Fixpoint startsWith (p s : jsstring) : bool :=
  match p, s with
  | [], _ => true
  | _ :: _, [] => false
  | a :: p', b :: s' => N.eqb a b && startsWith p' s'
  end.

(** [s.slice(n)] for a non-negative [n]. *)
Definition slice (n : nat) (s : jsstring) : jsstring := skipn n s.

(** ECMAScript WhiteSpace and LineTerminator code points, the ones
    [String.prototype.trim] strips. *)
Definition isWhiteSpace (c : codeunit) : bool :=
  (N.eqb c 9 || N.eqb c 10 || N.eqb c 11 || N.eqb c 12 || N.eqb c 13
   || N.eqb c 32 || N.eqb c 160 || N.eqb c 5760
   || (N.leb 8192 c && N.leb c 8202)
   || N.eqb c 8232 || N.eqb c 8233 || N.eqb c 8239 || N.eqb c 8287
   || N.eqb c 12288 || N.eqb c 65279)%bool.

Fixpoint trimStart (s : jsstring) : jsstring :=
  match s with
  | [] => []
  | c :: s' => if isWhiteSpace c then trimStart s' else s
  end.

Definition trimEnd (s : jsstring) : jsstring := rev (trimStart (rev s)).

Definition trim (s : jsstring) : jsstring := trimEnd (trimStart s).

(** The code unit of ['\n']. *)
Definition newline : codeunit := 10%N.

(** [s.split(sep)] for a separator of one code unit: never empty. *)
Fixpoint split (sep : codeunit) (s : jsstring) : list jsstring :=
  match s with
  | [] => [[]]
  | c :: s' =>
      if N.eqb c sep then [] :: split sep s'
      else match split sep s' with
           | l :: ls => (c :: l) :: ls
           | [] => [[c]]
           end
  end.

(** [xs.pop()]: the last element ([undefined] on an empty array) and the
    array that is left. *)
Fixpoint pop {A} (xs : list A) : option A * list A :=
  match xs with
  | [] => (None, [])
  | [x] => (Some x, [])
  | x :: rest => let '(l, rest') := pop rest in (l, x :: rest')
  end.

(** [xs.join(sep)] on an array of strings. *)
Fixpoint join (sep : jsstring) (xs : list jsstring) : jsstring :=
  match xs with
  | [] => []
  | [x] => x
  | x :: rest => x ++ sep ++ join sep rest
  end.

(** [String(n)] (a template literal's [${n}]) for a non-negative integer:
    its decimal digits. *)
Definition toString (n : N) : jsstring :=
  lit (DecimalString.NilZero.string_of_uint (N.to_uint n)).

End JS.

Import JS.

(** JavaScript numbers are only copied by this program, never computed
    with; a rational holds every finite double. *)
Definition number := Q.


(* ================================================================= *)
(** ** [TextDecoder] (UTF-8, non-fatal, BOM stripped), used with
       [{ stream: true }]: a byte-at-a-time machine whose state survives
       from one [decode] call to the next. *)

Module TextDecoder.

Record state := {
  code_point : N;
  bytes_seen : N;
  bytes_needed : N;
  lower_boundary : N;
  upper_boundary : N;
  bom_seen : bool
}.

Definition init : state :=
  {| code_point := 0; bytes_seen := 0; bytes_needed := 0;
     lower_boundary := 128; upper_boundary := 191; bom_seen := false |}.

Definition reset (st : state) : state :=
  {| code_point := 0; bytes_seen := 0; bytes_needed := 0;
     lower_boundary := 128; upper_boundary := 191; bom_seen := bom_seen st |}.

Definition replacement : N := 65533.

(** A byte read while no sequence is open. *)
Definition lead (st : state) (b : N) : state * list N :=
  if (b <=? 127)%N then (st, [b])
  else if ((194 <=? b) && (b <=? 223))%N%bool then
    ({| code_point := N.land b 31; bytes_seen := 0; bytes_needed := 1;
        lower_boundary := 128; upper_boundary := 191;
        bom_seen := bom_seen st |}, [])
  else if ((224 <=? b) && (b <=? 239))%N%bool then
    ({| code_point := N.land b 15; bytes_seen := 0; bytes_needed := 2;
        lower_boundary := if (b =? 224)%N then 160 else 128;
        upper_boundary := if (b =? 237)%N then 159 else 191;
        bom_seen := bom_seen st |}, [])
  else if ((240 <=? b) && (b <=? 244))%N%bool then
    ({| code_point := N.land b 7; bytes_seen := 0; bytes_needed := 3;
        lower_boundary := if (b =? 240)%N then 144 else 128;
        upper_boundary := if (b =? 244)%N then 143 else 191;
        bom_seen := bom_seen st |}, [])
  else (st, [replacement]).

(** The code points one byte gives rise to. A byte that cannot continue the
    open sequence closes it with U+FFFD and is read again as a lead byte. *)
Definition handler (st : state) (b : N) : state * list N :=
  if (bytes_needed st =? 0)%N then lead st b
  else if negb ((lower_boundary st <=? b) && (b <=? upper_boundary st))%N then
    let '(st', out) := lead (reset st) b in (st', replacement :: out)
  else
    let cp := N.lor (N.shiftl (code_point st) 6) (N.land b 63) in
    let seen := (bytes_seen st + 1)%N in
    if (seen =? bytes_needed st)%N then (reset st, [cp])
    else ({| code_point := cp; bytes_seen := seen;
             bytes_needed := bytes_needed st;
             lower_boundary := 128; upper_boundary := 191;
             bom_seen := bom_seen st |}, []).

(** A code point as UTF-16 code units. *)
Definition utf16 (cp : N) : jsstring :=
  if (cp <? 65536)%N then [cp]
  else [(55296 + N.shiftr (cp - 65536) 10)%N;
        (56320 + N.land (cp - 65536) 1023)%N].

(** The first code point ever produced is dropped when it is the BOM. *)
Fixpoint serialize (seen : bool) (cps : list N) : bool * jsstring :=
  match cps with
  | [] => (seen, [])
  | cp :: rest =>
      let '(seen', out) := serialize true rest in
      if negb seen && (cp =? 65279)%N then (seen', out)
      else (seen', utf16 cp ++ out)
  end.

Definition step (st : state) (b : Byte.byte) : state * jsstring :=
  let '(st', cps) := handler st (Byte.to_N b) in
  let '(seen, out) := serialize (bom_seen st') cps in
  ({| code_point := code_point st'; bytes_seen := bytes_seen st';
      bytes_needed := bytes_needed st';
      lower_boundary := lower_boundary st';
      upper_boundary := upper_boundary st'; bom_seen := seen |}, out).

(** [decoder.decode(value, { stream: true })] *)
Fixpoint decode (st : state) (value : list Byte.byte) : state * jsstring :=
  match value with
  | [] => (st, [])
  | b :: rest =>
      let '(st1, out1) := step st b in
      let '(st2, out2) := decode st1 rest in
      (st2, out1 ++ out2)
  end.

End TextDecoder.

(* ================================================================= *)
(** ** Data model *)

(** [Part] and [Content] of [@google/genai]: every field is optional. A part
    that is not text carries some other payload ([inlineData] stands for
    them all). *)
Record Part := {
  part_text : option jsstring;
  part_inlineData : option jsstring
}.

Record Content := {
  content_role : option jsstring;
  content_parts : option (list Part)
}.

(** What [request.contents] may hold, as [normalizeContents] tells the
    cases apart. *)
Inductive ContentListUnion :=
| ContentArray (contents : list Content)
| ContentString (contents : jsstring)
| ContentSingle (contents : Content).

Record GenerateContentParameters := {
  gen_model : jsstring;
  gen_contents : ContentListUnion
}.

Record EmbedContentParameters := {
  embed_model : jsstring;
  embed_contents : ContentListUnion
}.

Record OpenAIMessage := {
  msg_role : jsstring;
  msg_content : jsstring
}.

(** [OpenAICompletionResponse] *)
Record CompletionChoice := {
  choice_index : number;
  choice_message : OpenAIMessage;
  choice_finish_reason : jsstring
}.

Record CompletionUsage := {
  prompt_tokens : number;
  completion_tokens : number;
  total_tokens : number
}.

Record OpenAICompletionResponse := {
  completion_id : jsstring;
  completion_object : jsstring;
  completion_created : number;
  completion_choices : list CompletionChoice;
  completion_usage : CompletionUsage
}.

(** [OpenAIStreamChunk]. [choices] is an option because the decoding loop
    tests it for presence; [delta.content] is optional and [finish_reason]
    nullable in the interface. *)
Record StreamDelta := {
  delta_content : option jsstring
}.

Record StreamChoice := {
  stream_index : number;
  stream_delta : StreamDelta;
  stream_finish_reason : option jsstring
}.

Record OpenAIStreamChunk := {
  chunk_id : jsstring;
  chunk_object : jsstring;
  chunk_created : number;
  chunk_model : jsstring;
  chunk_choices : option (list StreamChoice)
}.

(** The body of an embeddings answer, as [embedContent] reads it:
    [data.data], [data.data.length], [data.data[0].embedding]. *)
Record EmbeddingItem := {
  item_embedding : list number
}.

Record EmbeddingList := {
  list_data : option (list EmbeddingItem)
}.

(** [GenerateContentResponse] as the generator builds it. *)
Record Candidate := {
  cand_content : Content;
  cand_finishReason : option jsstring;
  cand_index : number
}.

Record UsageMetadata := {
  promptTokenCount : number;
  candidatesTokenCount : number;
  totalTokenCount : number
}.

Record GenerateContentResponse := {
  candidates : list Candidate;
  usageMetadata : option UsageMetadata
}.

Record CountTokensResponse := {
  totalTokens : number
}.

Record ContentEmbedding := {
  values : list number
}.

Record EmbedContentResponse := {
  embeddings : list ContentEmbedding
}.

(* ================================================================= *)
(** ** HTTP *)

(** The object handed to [JSON.stringify] as the request body. *)
Inductive RequestBody :=
| ChatBody (model : jsstring) (messages : list OpenAIMessage) (stream : bool)
| EmbeddingBody (model : jsstring) (input : jsstring).

Record Request := {
  req_url : jsstring;
  req_method : jsstring;
  req_headers : list (jsstring * jsstring);
  req_body : RequestBody
}.

(** A [Response]: [resp_text] is what [response.text()] resolves to (and
    what [response.json()] parses); [resp_body] is [response.body], [None]
    for [null], else the chunks its reader hands out before [done]. *)
Record Response := {
  resp_status : N;
  resp_statusText : jsstring;
  resp_text : jsstring;
  resp_body : option (list (list Byte.byte))
}.

(** [response.ok]: the status is in the range 200 to 299. *)
Definition resp_ok (r : Response) : bool :=
  ((200 <=? resp_status r) && (resp_status r <=? 299))%N.

(** What a method may throw. *)
Inductive Exn :=
| Error (message : jsstring)
| SyntaxError
| TypeError.

Inductive Result (A : Type) :=
| Ok (a : A)
| Throw (e : Exn).

Arguments Ok {A} a.
Arguments Throw {A} e.

(** The platform: what the generator calls and does not define. [JSON.parse]
    followed by the cast to the interface the source names is one parser per
    interface, [None] when [JSON.parse] throws. [fetch] answers a request
    and moves the backend on. *)
Class Platform := {
  World : Type;
  toUpperCase : jsstring -> jsstring;
  parseCompletion : jsstring -> option OpenAICompletionResponse;
  parseStreamChunk : jsstring -> option OpenAIStreamChunk;
  parseEmbeddingList : jsstring -> option EmbeddingList;
  fetch : Request -> World -> Response * World
}.

(* ================================================================= *)
(** ** The generator *)

Record OllamaContentGenerator := {
  baseUrl : jsstring;
  model : jsstring
}.

(** [constructor(baseUrl = 'http://localhost:11434/v1', model = 'llama3')] *)
Definition new_OllamaContentGenerator
    (baseUrl model : option jsstring) : OllamaContentGenerator :=
  {| baseUrl := match baseUrl with
                | Some u => u
                | None => lit "http://localhost:11434/v1"
                end;
     model := match model with Some m => m | None => lit "llama3" end |}.

(** [toOpenAIRole] *)
Definition toOpenAIRole (role : jsstring) : jsstring :=
  if eqb role (lit "user") then lit "user"
  else if eqb role (lit "model") then lit "assistant"
  else lit "system".

(** [normalizeContents] *)
Definition normalizeContents (contents : ContentListUnion) : list Content :=
  match contents with
  | ContentArray contents => contents
  | ContentString contents =>
      [{| content_role := Some (lit "user");
          content_parts :=
            Some [{| part_text := Some contents; part_inlineData := None |}] |}]
  | ContentSingle contents => [contents]
  end.

(** [toOpenAIMessages] *)
Definition toOpenAIMessages (contents : list Content) : list OpenAIMessage :=
  map (fun content =>
         let parts := or_array (content_parts content) [] in
         let text :=
           join (lit "")
                (map (fun part =>
                        match part_text part with
                        | Some t => if truthy t then t else lit ""
                        | None => lit ""
                        end) parts) in
         {| msg_role := toOpenAIRole (or_else (content_role content) (lit "user"));
            msg_content := text |})
      contents.

Section Generator.

Context `{P : Platform}.

(** *** The monad of the [async] methods *)

(** The backend and the requests sent to it so far, oldest first. *)
Record Net := {
  net_world : World;
  net_log : list Request
}.

Definition Async (A : Type) : Type := Net -> Result A * Net.

Definition ret {A} (a : A) : Async A := fun n => (Ok a, n).

Definition throw {A} (e : Exn) : Async A := fun n => (Throw e, n).

Definition bind {A B} (c : Async A) (k : A -> Async B) : Async B :=
  fun n =>
    match c n with
    | (Ok a, n') => k a n'
    | (Throw e, n') => (Throw e, n')
    end.

Notation "x <- c ;; k" := (bind c (fun x => k))
  (at level 61, c at next level, right associativity).

(** [await fetch(url, { method, headers, body })] *)
Definition await_fetch (req : Request) : Async Response :=
  fun n =>
    let '(response, w) := fetch req (net_world n) in
    (Ok response, {| net_world := w; net_log := net_log n ++ [req] |}).

(** [await response.json()] read at the interface [parse] stands for. *)
Definition response_json {A} (parse : jsstring -> option A)
    (response : Response) : Async A :=
  match parse (resp_text response) with
  | Some data => ret data
  | None => throw SyntaxError
  end.

(** *** [generateContent] *)

Definition generateContent (this : OllamaContentGenerator)
    (request : GenerateContentParameters) (_userPromptId : jsstring)
  : Async GenerateContentResponse :=
  let contents := normalizeContents (gen_contents request) in
  let messages := toOpenAIMessages contents in
  let model :=
    if startsWith (lit "gemini") (gen_model request)
    then model this
    else gen_model request in
  response <- await_fetch
    {| req_url := baseUrl this ++ lit "/chat/completions";
       req_method := lit "POST";
       req_headers := [(lit "Content-Type", lit "application/json")];
       req_body := ChatBody model messages false |} ;;
  if negb (resp_ok response) then
    let errorText := resp_text response in
    throw (Error (lit "Ollama API error: " ++ toString (resp_status response)
                  ++ lit " - " ++ errorText))
  else
    data <- response_json parseCompletion response ;;
    ret {| candidates :=
             map (fun choice =>
                    {| cand_content :=
                         {| content_role := Some (lit "model");
                            content_parts :=
                              Some [{| part_text :=
                                         Some (msg_content (choice_message choice));
                                       part_inlineData := None |}] |};
                       cand_finishReason :=
                         Some (toUpperCase (choice_finish_reason choice));
                       cand_index := choice_index choice |})
                 (completion_choices data);
           usageMetadata :=
             Some {| promptTokenCount := prompt_tokens (completion_usage data);
                     candidatesTokenCount :=
                       completion_tokens (completion_usage data);
                     totalTokenCount := total_tokens (completion_usage data) |} |}.

(** *** [generateContentStream] *)

(** Lines 202-226, the body of the [try]: what one parsed frame yields. *)
Definition stream_frame (data : OpenAIStreamChunk)
  : Result (option GenerateContentResponse) :=
  match chunk_choices data with
  | None => Ok None
  | Some choices =>
      if (0 <? length choices)%nat then
        match nth_error choices 0 with
        | None => Throw TypeError
        | Some choice0 =>
            let delta := stream_delta choice0 in
            match delta_content delta with
            | None => Ok None
            | Some content =>
                if truthy content then
                  Ok (Some
                    {| candidates :=
                         [{| cand_content :=
                               {| content_role := Some (lit "model");
                                  content_parts :=
                                    Some [{| part_text := Some content;
                                             part_inlineData := None |}] |};
                             cand_finishReason :=
                               match stream_finish_reason choice0 with
                               | None => None
                               | Some reason =>
                                   let upper := toUpperCase reason in
                                   if truthy upper then Some upper else None
                               end;
                             cand_index := 0%Q |}];
                       usageMetadata := None |})
                else Ok None
            end
        end
      else Ok None
  end.

(** Lines 198-230, the body of [for (const line of lines)]: what one line
    yields. The [catch] swallows whatever the [try] throws. *)
Definition stream_line (line : jsstring) : list GenerateContentResponse :=
  let trimmed := trim line in
  if negb (truthy trimmed) || eqb trimmed (lit "data: [DONE]") then []
  else if startsWith (lit "data: ") trimmed then
    match
      match parseStreamChunk (slice 6 trimmed) with
      | None => Throw SyntaxError
      | Some data => stream_frame data
      end
    with
    | Ok (Some chunk) => [chunk]
    | Ok None => []
    | Throw _e => []
    end
  else [].

(** The generator's locals: [buffer], and the state of [decoder]. *)
Record StreamState := {
  buffer : jsstring;
  decoder : TextDecoder.state
}.

(** Lines 193-195: one [value] read; the candidate lines and the state
    carried to the next read. *)
Definition stream_read (st : StreamState) (value : list Byte.byte)
  : list jsstring * StreamState :=
  let '(decoder', decoded) := TextDecoder.decode (decoder st) value in
  let buffer := buffer st ++ decoded in
  let lines := split newline buffer in
  let '(last, lines) := pop lines in
  (lines, {| buffer := or_else last (lit ""); decoder := decoder' |}).

(** Lines 189-232, [while (true)]: [reads] are the values [reader.read()]
    resolves to before [done]; the result is what the generator yields. *)
Fixpoint stream_loop (st : StreamState) (reads : list (list Byte.byte))
  : list GenerateContentResponse :=
  match reads with
  | [] => []
  | value :: reads' =>
      let '(lines, st') := stream_read st value in
      flat_map stream_line lines ++ stream_loop st' reads'
  end.

Definition stream_init : StreamState :=
  {| buffer := lit ""; decoder := TextDecoder.init |}.

Definition generateContentStream (this : OllamaContentGenerator)
    (request : GenerateContentParameters) (_userPromptId : jsstring)
  : Async (list GenerateContentResponse) :=
  let contents := normalizeContents (gen_contents request) in
  let messages := toOpenAIMessages contents in
  let model :=
    if startsWith (lit "gemini") (gen_model request)
    then model this
    else gen_model request in
  response <- await_fetch
    {| req_url := baseUrl this ++ lit "/chat/completions";
       req_method := lit "POST";
       req_headers := [(lit "Content-Type", lit "application/json")];
       req_body := ChatBody model messages true |} ;;
  if negb (resp_ok response) then
    let errorText := resp_text response in
    throw (Error (lit "Ollama API error: " ++ toString (resp_status response)
                  ++ lit " - " ++ errorText))
  else
    match resp_body response with
    | None => throw (Error (lit "No response body from Ollama"))
    | Some reads => ret (stream_loop stream_init reads)
    end.

(** *** [countTokens] *)

Definition countTokens : Async CountTokensResponse :=
  ret {| totalTokens := 0%Q |}.

(** *** [embedContent] *)

(** Lines 253-262: the texts of all parts of all contents. *)
Definition embed_texts (contents : list Content) : list jsstring :=
  fold_left
    (fun texts content =>
       match content_parts content with
       | Some parts =>
           fold_left
             (fun texts part =>
                match part_text part with
                | Some t => if truthy t then texts ++ [t] else texts
                | None => texts
                end)
             parts texts
       | None => texts
       end)
    contents [].

(** Lines 281-283: what one parsed answer adds to [embeddings]. *)
Definition embed_push (data : EmbeddingList)
    (embeddings : list ContentEmbedding) : Result (list ContentEmbedding) :=
  match list_data data with
  | None => Ok embeddings
  | Some items =>
      if (0 <? length items)%nat then
        match nth_error items 0 with
        | None => Throw TypeError
        | Some item => Ok (embeddings ++ [{| values := item_embedding item |}])
        end
      else Ok embeddings
  end.

(** Lines 266-284, [for (const input of texts)]. *)
Fixpoint embed_loop (this : OllamaContentGenerator) (model : jsstring)
    (texts : list jsstring) (embeddings : list ContentEmbedding)
  : Async (list ContentEmbedding) :=
  match texts with
  | [] => ret embeddings
  | input :: texts' =>
      response <- await_fetch
        {| req_url := baseUrl this ++ lit "/embeddings";
           req_method := lit "POST";
           req_headers := [(lit "Content-Type", lit "application/json")];
           req_body := EmbeddingBody model input |} ;;
      if negb (resp_ok response) then
        throw (Error (lit "Ollama Embedding Error: " ++ resp_statusText response))
      else
        data <- response_json parseEmbeddingList response ;;
        match embed_push data embeddings with
        | Ok embeddings' => embed_loop this model texts' embeddings'
        | Throw e => throw e
        end
  end.

Definition embedContent (this : OllamaContentGenerator)
    (request : EmbedContentParameters) : Async EmbedContentResponse :=
  let model :=
    if startsWith (lit "gemini") (embed_model request)
    then model this
    else embed_model request in
  let contents := normalizeContents (embed_contents request) in
  let texts := embed_texts contents in
  embeddings <- embed_loop this model texts [] ;;
  ret {| embeddings := embeddings |}.

End Generator.

(* ================================================================= *)
(** ** Vocabulary of the statements *)

Section Vocabulary.

Context `{P : Platform}.

(** The complete lines of a text and the fragment after its last line
    break: [s.split('\n')] without its last element, and that element. *)
Fixpoint cut (sep : codeunit) (s : jsstring) : list jsstring * jsstring :=
  match s with
  | [] => ([], [])
  | c :: s' =>
      let '(lines, rest) := cut sep s' in
      if N.eqb c sep then ([] :: lines, rest)
      else match lines with
           | [] => ([], c :: rest)
           | l :: lines' => ((c :: l) :: lines', rest)
           end
  end.

(** The lines a whole body is cut into, as [TextDecoder] decodes it. *)
Definition body_lines (body : list Byte.byte) : list jsstring :=
  fst (cut newline (snd (TextDecoder.decode TextDecoder.init body))).

(** After a read the buffer holds no complete line. *)
Definition settled (st : StreamState) : Prop :=
  cut newline (buffer st) = ([], buffer st).

(** A part carries text when [part.text] is truthy: present and not empty.
    [carried_text] is that text, if any. *)
Definition carried_text (part : Part) : option jsstring :=
  match part_text part with
  | Some (c :: t) => Some (c :: t)
  | _ => None
  end.

(** Flattening of one turn: the texts of its parts, in order, nothing in
    between. *)
Definition flattened_text (content : Content) : jsstring :=
  concat (map (fun part => match carried_text part with
                           | Some t => t
                           | None => []
                           end)
              (match content_parts content with Some ps => ps | None => [] end)).

(** The texts carried by the parts of the turns, turn by turn. *)
Definition text_fragments (contents : list Content) : list jsstring :=
  flat_map (fun content =>
              flat_map (fun part => match carried_text part with
                                    | Some t => [t]
                                    | None => []
                                    end)
                       (match content_parts content with
                        | Some ps => ps
                        | None => []
                        end))
           contents.

(** The model name a request is sent with. *)
Definition body_model (b : RequestBody) : jsstring :=
  match b with
  | ChatBody model _ _ => model
  | EmbeddingBody model _ => model
  end.

(** The request for the embedding of one text. *)
Definition embedding_request (this : OllamaContentGenerator)
    (model input : jsstring) : Request :=
  {| req_url := baseUrl this ++ lit "/embeddings";
     req_method := lit "POST";
     req_headers := [(lit "Content-Type", lit "application/json")];
     req_body := EmbeddingBody model input |}.

(** The chat-completions request of a generate call. *)
Definition chat_request (this : OllamaContentGenerator)
    (request : GenerateContentParameters) (stream : bool) : Request :=
  {| req_url := baseUrl this ++ lit "/chat/completions";
     req_method := lit "POST";
     req_headers := [(lit "Content-Type", lit "application/json")];
     req_body :=
       ChatBody (if startsWith (lit "gemini") (gen_model request)
                 then model this else gen_model request)
                (toOpenAIMessages (normalizeContents (gen_contents request)))
                stream |}.

(** The backend's answers to requests sent one after the other. *)
Fixpoint serve (reqs : list Request) (w : World) : list Response * World :=
  match reqs with
  | [] => ([], w)
  | req :: reqs' =>
      let '(response, w1) := fetch req w in
      let '(responses, w2) := serve reqs' w1 in
      (response :: responses, w2)
  end.

(** An embeddings answer [embedContent] reads without failing. *)
Definition embedding_answer (response : Response) : Prop :=
  resp_ok response = true /\
  exists data, parseEmbeddingList (resp_text response) = Some data.

(** The embedding an answer contributes: the vector of the first element of
    its [data], nothing when [data] is missing or empty. *)
Definition first_embedding (response : Response) : list ContentEmbedding :=
  match parseEmbeddingList (resp_text response) with
  | Some {| list_data := Some (item :: _) |} =>
      [{| values := item_embedding item |}]
  | _ => []
  end.

(** The chunk a frame with delta text [content] gives rise to. *)
Definition text_chunk (content : jsstring) (finishReason : option jsstring)
  : GenerateContentResponse :=
  {| candidates :=
       [{| cand_content :=
             {| content_role := Some (lit "model");
                content_parts :=
                  Some [{| part_text := Some content;
                           part_inlineData := None |}] |};
           cand_finishReason := finishReason;
           cand_index := 0%Q |}];
     usageMetadata := None |}.

(** The code units of the decimal digits. *)
Definition is_digit (c : codeunit) : Prop := (48 <= c <= 57)%N.

(** The message of a failed chat-completions call. *)
Definition api_error (response : Response) : Exn :=
  Error (lit "Ollama API error: " ++ toString (resp_status response)
         ++ lit " - " ++ resp_text response).

End Vocabulary.

(* ================================================================= *)
(** ** A scripted backend, for the examples *)

Module Demo.

(** A text of the examples, with ['] standing for the double quote. *)
Definition json (s : String.string) : jsstring :=
  map (fun c => if (c =? 39)%N then 34%N else c) (lit s).

Definition bytes (s : String.string) : list Byte.byte :=
  map (fun b => match b with Byte.x27 => Byte.x22 | _ => b end)
      (String.list_byte_of_string s).

(** [toUpperCase] on ASCII letters. *)
Definition upper (s : jsstring) : jsstring :=
  map (fun c => if ((97 <=? c) && (c <=? 122))%N then (c - 32)%N else c) s.

Definition frame (content reason : option String.string) : OpenAIStreamChunk :=
  {| chunk_id := lit "chatcmpl-1"; chunk_object := lit "chat.completion.chunk";
     chunk_created := 0%Q; chunk_model := lit "llama3";
     chunk_choices :=
       Some [{| stream_index := 0%Q;
                stream_delta := {| delta_content := option_map lit content |};
                stream_finish_reason := option_map lit reason |}] |}.

Definition frame_text_hello : String.string :=
  "{'choices':[{'index':0,'delta':{'content':'Hel'},'finish_reason':null}]}".
Definition frame_text_stop : String.string :=
  "{'choices':[{'index':0,'delta':{'content':'lo'},'finish_reason':'stop'}]}".
Definition frame_text_noreason : String.string :=
  "{'choices':[{'index':0,'delta':{'content':'x'},'finish_reason':''}]}".
Definition frame_text_nochoices : String.string := "{'choices':[]}".

Definition frame_nochoices : OpenAIStreamChunk :=
  {| chunk_id := lit ""; chunk_object := lit ""; chunk_created := 0%Q;
     chunk_model := lit ""; chunk_choices := Some [] |}.

(** [JSON.parse] on the frames of the examples; it throws on all else. *)
Definition parse_frame (s : jsstring) : option OpenAIStreamChunk :=
  if eqb s (json frame_text_hello) then Some (frame (Some "Hel") None)
  else if eqb s (json frame_text_stop) then Some (frame (Some "lo") (Some "stop"))
  else if eqb s (json frame_text_noreason) then Some (frame (Some "x") (Some ""))
  else if eqb s (json frame_text_nochoices) then Some frame_nochoices
  else None.

Definition completion_text : String.string :=
  "{'choices':[{'index':0,'message':{'role':'assistant','content':'A'},'finish_reason':'stop'},{'index':1,'message':{'role':'assistant','content':'B'},'finish_reason':'length'}],'usage':{'prompt_tokens':3,'completion_tokens':2,'total_tokens':5}}".

Definition completion : OpenAICompletionResponse :=
  {| completion_id := lit ""; completion_object := lit "";
     completion_created := 0%Q;
     completion_choices :=
       [{| choice_index := 0%Q;
           choice_message := {| msg_role := lit "assistant"; msg_content := lit "A" |};
           choice_finish_reason := lit "stop" |};
        {| choice_index := 1%Q;
           choice_message := {| msg_role := lit "assistant"; msg_content := lit "B" |};
           choice_finish_reason := lit "length" |}];
     completion_usage :=
       {| prompt_tokens := 3%Q; completion_tokens := 2%Q; total_tokens := 5%Q |} |}.

Definition parse_completion (s : jsstring) : option OpenAICompletionResponse :=
  if eqb s (json completion_text) then Some completion else None.

Definition parse_embeddings (s : jsstring) : option EmbeddingList :=
  if eqb s (json "{'data':[{'embedding':[1,2]}]}") then
    Some {| list_data := Some [{| item_embedding := [1%Q; 2%Q] |}] |}
  else if eqb s (json "{'data':[{'embedding':[3]},{'embedding':[4]}]}") then
    Some {| list_data := Some [{| item_embedding := [3%Q] |};
                               {| item_embedding := [4%Q] |}] |}
  else if eqb s (json "{'data':[]}") then Some {| list_data := Some [] |}
  else if eqb s (json "{}") then Some {| list_data := None |}
  else None.

Definition response (status : N) (statusText text : String.string)
    (body : option (list (list Byte.byte))) : Response :=
  {| resp_status := status; resp_statusText := lit statusText;
     resp_text := json text; resp_body := body |}.

(** The backend answers with the responses of a script, one per request,
    whatever the request; 503 once the script is used up. *)
Definition platform : Platform :=
  {| World := list Response;
     toUpperCase := upper;
     parseCompletion := parse_completion;
     parseStreamChunk := parse_frame;
     parseEmbeddingList := parse_embeddings;
     fetch := fun _ w =>
                match w with
                | r :: w' => (r, w')
                | [] => (response 503 "Service Unavailable" "" None, [])
                end |}.

Definition start (script : list Response) : @Net platform :=
  @Build_Net platform script [].

Definition generator : OllamaContentGenerator :=
  new_OllamaContentGenerator None None.

Definition user_says (s : String.string) : ContentListUnion := ContentString (lit s).

Definition text_part (s : String.string) : Part :=
  {| part_text := Some (lit s); part_inlineData := None |}.

Definition image_part : Part :=
  {| part_text := None; part_inlineData := Some (lit "iVBORw0KGgo=") |}.

(** A streamed body: two frames, a line that is not JSON, the terminator. *)
Definition stream_body : String.string :=
  "data: {'choices':[{'index':0,'delta':{'content':'Hel'},'finish_reason':null}]}

data: {oops
data: {'choices':[{'index':0,'delta':{'content':'lo'},'finish_reason':'stop'}]}

data: [DONE]
".

(** The same body after a frame without choices. *)
Definition nochoices_body : String.string :=
  String.append "data: {'choices':[]}
" stream_body.

(** A request of one user turn for a model. *)
Definition ask (model : String.string) : GenerateContentParameters :=
  {| gen_model := lit model; gen_contents := user_says "hi" |}.

(** A request with three text parts, an image and an empty text. *)
Definition three_texts : EmbedContentParameters :=
  {| embed_model := lit "nomic-embed-text";
     embed_contents :=
       ContentArray
         [ {| content_role := Some (lit "user");
              content_parts := Some [text_part "a"; image_part; text_part "b"] |};
           {| content_role := None; content_parts := None |};
           {| content_role := Some (lit "user");
              content_parts := Some [text_part ""; text_part "c"] |} ] |}.

(** Three embeddings answers, the second without [data]. *)
Definition embed_script : list Response :=
  [response 200 "OK" "{'data':[{'embedding':[1,2]}]}" None;
   response 200 "OK" "{}" None;
   response 200 "OK" "{'data':[{'embedding':[3]},{'embedding':[4]}]}" None].

(** Three embeddings answers, the second a failure. *)
Definition failing_script (status : N) (statusText body : String.string)
  : list Response :=
  [response 200 "OK" "{'data':[{'embedding':[1,2]}]}" None;
   response status statusText body None;
   response 200 "OK" "{'data':[{'embedding':[3]},{'embedding':[4]}]}" None].

End Demo.

(* ================================================================= *)
(** ** Vocabulary of the further statements *)

(** A run of white space. *)
Definition whitespace (ws : jsstring) : Prop :=
  Forall (fun c => isWhiteSpace c = true) ws.

(** The generator's locals after some reads. *)
Definition stream_state (st : StreamState) (reads : list (list Byte.byte))
  : StreamState :=
  fold_left (fun st value => snd (stream_read st value)) reads st.

(** What holds of the decoder between two bytes: the bounds are those of a
    continuation byte, and a sequence that is open has a code point that is
    not zero, or has just been opened by a lead byte that raises the lower
    bound and still wants two bytes. *)
Definition decoder_ok (st : TextDecoder.state) : Prop :=
  (128 <= TextDecoder.lower_boundary st)%N /\
  (TextDecoder.upper_boundary st <= 191)%N /\
  (TextDecoder.bytes_needed st = 0%N \/
   TextDecoder.code_point st <> 0%N \/
   ((144 <= TextDecoder.lower_boundary st)%N /\
    (TextDecoder.bytes_seen st + 1 < TextDecoder.bytes_needed st)%N)).

(** The line feeds of a body. *)
Definition line_feeds (body : list Byte.byte) : nat :=
  count_occ Byte.byte_eq_dec body Byte.x0a.

(** An embeddings answer that holds a vector: a success whose [data] is
    present and not empty. *)
Definition embedding_vector `{P : Platform} (response : Response)
    (e : ContentEmbedding) : Prop :=
  resp_ok response = true /\
  exists (item : EmbeddingItem) (items : list EmbeddingItem),
    parseEmbeddingList (resp_text response)
      = Some {| list_data := Some (item :: items) |} /\
    e = {| values := item_embedding item |}.

(* ================================================================= *)
(** ** The model dialog

    The computations of [packages/cli/src/ui/components/ModelDialog.tsx]
    that decide what is listed, what is selected first and what a selection
    or the Escape key does. A render is a function of the dialog's state;
    [useMemo] and [useCallback] only cache. *)

Module ModelDialog.

(** The model names, the display names and the Ollama marker of [AuthType]
    that the dialog imports from [@google/gemini-cli-core]. *)
Class Core := {
  PREVIEW_GEMINI_MODEL : jsstring;
  PREVIEW_GEMINI_FLASH_MODEL : jsstring;
  PREVIEW_GEMINI_MODEL_AUTO : jsstring;
  DEFAULT_GEMINI_MODEL : jsstring;
  DEFAULT_GEMINI_FLASH_MODEL : jsstring;
  DEFAULT_GEMINI_FLASH_LITE_MODEL : jsstring;
  DEFAULT_GEMINI_MODEL_AUTO : jsstring;
  getDisplayString : jsstring -> jsstring;
  USE_OLLAMA : jsstring
}.

(** What the dialog reads of the configuration: [getModel()],
    [getPreviewFeatures()], [getHasAccessToPreviewModel()] and
    [getContentGeneratorConfig()?.authType]. *)
Record Config := {
  getModel : jsstring;
  getPreviewFeatures : bool;
  getHasAccessToPreviewModel : bool;
  authType : option jsstring
}.

(** Modelled from the spec: [config.setModel], of the configuration class
    that is not among the sources; the dialog writes the chosen model
    identifier back to the configuration it reads the model from. *)
Definition setModel (config : Config) (model : jsstring) : Config :=
  {| getModel := model;
     getPreviewFeatures := getPreviewFeatures config;
     getHasAccessToPreviewModel := getHasAccessToPreviewModel config;
     authType := authType config |}.

Inductive View := main | manual.

(** An item of the radio list. *)
Record Item := {
  value : jsstring;
  title : jsstring;
  description : option jsstring;
  key : jsstring
}.

(** The state of the dialog: the configuration of the context, the two
    [useState] cells, how often [onClose] was called and the models of the
    events handed to [logModelSlashCommand]. *)
Record Dialog := {
  config : option Config;
  view : View;
  ollamaModels : list jsstring;
  closed : nat;
  logged : list jsstring
}.

(** [xs.includes(x)] on strings. *)
Definition includes (xs : list jsstring) (x : jsstring) : bool :=
  existsb (eqb x) xs.

(** [xs.findIndex(p)], [None] for -1. *)
Fixpoint findIndex {A} (p : A -> bool) (xs : list A) : option nat :=
  match xs with
  | [] => None
  | x :: xs' =>
      if p x then Some 0
      else match findIndex p xs' with
           | Some i => Some (S i)
           | None => None
           end
  end.

Section Render.

Context `{C : Core}.

Definition preferredModel (d : Dialog) : jsstring :=
  or_else (option_map getModel (config d)) DEFAULT_GEMINI_MODEL_AUTO.

Definition shouldShowPreviewModels (d : Dialog) : bool :=
  match config d with
  | Some c => getPreviewFeatures c && getHasAccessToPreviewModel c
  | None => false
  end.

Definition isOllama (d : Dialog) : bool :=
  match config d with
  | Some c =>
      match authType c with
      | Some a => eqb a USE_OLLAMA
      | None => false
      end
  | None => false
  end.

Definition manualModelSelected (d : Dialog) : jsstring :=
  let manualModels :=
    [DEFAULT_GEMINI_MODEL; DEFAULT_GEMINI_FLASH_MODEL;
     DEFAULT_GEMINI_FLASH_LITE_MODEL; PREVIEW_GEMINI_MODEL;
     PREVIEW_GEMINI_FLASH_MODEL] in
  if includes manualModels (preferredModel d) then preferredModel d
  else lit "".

Definition mainOptions (d : Dialog) : list Item :=
  if isOllama d then
    if (length (ollamaModels d) =? 0)%nat then
      [{| value := lit "loading";
          title := lit "Loading Ollama models...";
          description := None;
          key := lit "loading" |}]
    else
      map (fun model =>
             {| value := model; title := model; description := None;
                key := model |})
          (ollamaModels d)
  else
    let list :=
      [{| value := DEFAULT_GEMINI_MODEL_AUTO;
          title := getDisplayString DEFAULT_GEMINI_MODEL_AUTO;
          description :=
            Some (lit "Let Gemini CLI decide the best model for the task: gemini-2.5-pro, gemini-2.5-flash");
          key := DEFAULT_GEMINI_MODEL_AUTO |};
       {| value := lit "Manual";
          title :=
            if truthy (manualModelSelected d)
            then lit "Manual (" ++ manualModelSelected d ++ lit ")"
            else lit "Manual";
          description := Some (lit "Manually select a model");
          key := lit "Manual" |}] in
    if shouldShowPreviewModels d then
      {| value := PREVIEW_GEMINI_MODEL_AUTO;
         title := getDisplayString PREVIEW_GEMINI_MODEL_AUTO;
         description :=
           Some (lit "Let Gemini CLI decide the best model for the task: gemini-3-pro, gemini-3-flash");
         key := PREVIEW_GEMINI_MODEL_AUTO |} :: list
    else list.

Definition manualOptions (d : Dialog) : list Item :=
  if isOllama d then []
  else
    let list :=
      [{| value := DEFAULT_GEMINI_MODEL; title := DEFAULT_GEMINI_MODEL;
          description := None; key := DEFAULT_GEMINI_MODEL |};
       {| value := DEFAULT_GEMINI_FLASH_MODEL;
          title := DEFAULT_GEMINI_FLASH_MODEL;
          description := None; key := DEFAULT_GEMINI_FLASH_MODEL |};
       {| value := DEFAULT_GEMINI_FLASH_LITE_MODEL;
          title := DEFAULT_GEMINI_FLASH_LITE_MODEL;
          description := None; key := DEFAULT_GEMINI_FLASH_LITE_MODEL |}] in
    if shouldShowPreviewModels d then
      {| value := PREVIEW_GEMINI_MODEL; title := PREVIEW_GEMINI_MODEL;
         description := None; key := PREVIEW_GEMINI_MODEL |}
      :: {| value := PREVIEW_GEMINI_FLASH_MODEL;
            title := PREVIEW_GEMINI_FLASH_MODEL;
            description := None; key := PREVIEW_GEMINI_FLASH_MODEL |}
      :: list
    else list.

Definition options (d : Dialog) : list Item :=
  match view d with
  | main => mainOptions d
  | manual => manualOptions d
  end.

Definition initialIndex (d : Dialog) : nat :=
  match findIndex (fun option => eqb (value option) (preferredModel d))
                  (options d) with
  | Some idx => idx
  | None =>
      match view d with
      | main =>
          match findIndex (fun o => eqb (value o) (lit "Manual")) (options d)
          with
          | Some manualIdx => manualIdx
          | None => 0
          end
      | manual => 0
      end
  end.

(** [handleSelect] *)
Definition handleSelect (model : jsstring) (d : Dialog) : Dialog :=
  if eqb model (lit "Manual") then
    {| config := config d; view := manual; ollamaModels := ollamaModels d;
       closed := closed d; logged := logged d |}
  else
    match config d with
    | Some c =>
        {| config := Some (setModel c model); view := view d;
           ollamaModels := ollamaModels d;
           closed := S (closed d); logged := logged d ++ [model] |}
    | None =>
        {| config := None; view := view d; ollamaModels := ollamaModels d;
           closed := S (closed d); logged := logged d |}
    end.

(** The handler given to [useKeypress], on a key of name [name]. *)
Definition onKeypress (name : jsstring) (d : Dialog) : Dialog :=
  if eqb name (lit "escape") then
    match view d with
    | manual =>
        {| config := config d; view := main; ollamaModels := ollamaModels d;
           closed := closed d; logged := logged d |}
    | main =>
        {| config := config d; view := view d; ollamaModels := ollamaModels d;
           closed := S (closed d); logged := logged d |}
    end
  else d.

End Render.

(** Model names for the examples. *)
Definition core : Core :=
  {| PREVIEW_GEMINI_MODEL := lit "gemini-3-pro-preview";
     PREVIEW_GEMINI_FLASH_MODEL := lit "gemini-3-flash-preview";
     PREVIEW_GEMINI_MODEL_AUTO := lit "auto-gemini-3";
     DEFAULT_GEMINI_MODEL := lit "gemini-2.5-pro";
     DEFAULT_GEMINI_FLASH_MODEL := lit "gemini-2.5-flash";
     DEFAULT_GEMINI_FLASH_LITE_MODEL := lit "gemini-2.5-flash-lite";
     DEFAULT_GEMINI_MODEL_AUTO := lit "auto-gemini-2.5";
     getDisplayString := fun model => model;
     USE_OLLAMA := lit "ollama" |}.

(** A dialog that has just been opened. *)
Definition opened (config : option Config) (models : list jsstring) : Dialog :=
  {| config := config; view := main; ollamaModels := models;
     closed := 0; logged := [] |}.

Definition gemini_config (model : String.string) : Config :=
  {| getModel := lit model; getPreviewFeatures := false;
     getHasAccessToPreviewModel := false; authType := Some (lit "oauth") |}.

Definition ollama_config (model : String.string) : Config :=
  {| getModel := lit model; getPreviewFeatures := false;
     getHasAccessToPreviewModel := false; authType := Some (lit "ollama") |}.

(** A dialog of the Gemini CLI whose preferred model is a manual one, with
    the item it selects first. *)
Definition flash_dialog : Dialog :=
  opened (Some (gemini_config "gemini-2.5-flash")) [].

Definition manual_item : Item :=
  {| value := lit "Manual"; title := lit "Manual (gemini-2.5-flash)";
     description := Some (lit "Manually select a model");
     key := lit "Manual" |}.

(** A dialog in Ollama mode with two models listed, with the item it
    selects first. *)
Definition llama_dialog : Dialog :=
  opened (Some (ollama_config "llama3")) [lit "mistral"; lit "llama3"].

Definition llama_item : Item :=
  {| value := lit "llama3"; title := lit "llama3"; description := None;
     key := lit "llama3" |}.

End ModelDialog.

(* ================================================================= *)
(** ** More of the scripted backend *)

Module DemoMore.

Import Demo.

(** Three embeddings answers that each hold a vector. *)
Definition full_script : list Response :=
  [response 200 "OK" "{'data':[{'embedding':[1,2]}]}" None;
   response 200 "OK" "{'data':[{'embedding':[3]},{'embedding':[4]}]}" None;
   response 200 "OK" "{'data':[{'embedding':[1,2]}]}" None].

(** Three embeddings answers, the second not JSON. *)
Definition unreadable_script : list Response :=
  [response 200 "OK" "{'data':[{'embedding':[1,2]}]}" None;
   response 200 "OK" "<html>" None;
   response 200 "OK" "{}" None].

(** A request without text: an image, an empty text, a turn without parts. *)
Definition no_text : EmbedContentParameters :=
  {| embed_model := lit "nomic-embed-text";
     embed_contents :=
       ContentArray [ {| content_role := Some (lit "user");
                         content_parts := Some [image_part; text_part ""] |};
                      {| content_role := None; content_parts := None |} ] |}.

End DemoMore.

(* ================================================================= *)
(** ** Facts about strings and arrays *)

Section StringFacts.

Lemma eqb_eq (a b : jsstring) : eqb a b = true <-> a = b.
Proof.
  unfold eqb. destruct (list_eq_dec N.eq_dec a b); split; congruence.
Qed.

Lemma eqb_neq (a b : jsstring) : eqb a b = false <-> a <> b.
Proof.
  unfold eqb. destruct (list_eq_dec N.eq_dec a b); split; congruence.
Qed.

Lemma truthy_false (s : jsstring) : truthy s = false <-> s = [].
Proof. destruct s; simpl; split; congruence. Qed.

Lemma or_else_some (s : jsstring) : or_else (Some s) (lit "") = s.
Proof. destruct s; reflexivity. Qed.

Lemma join_empty (xs : list jsstring) : join (lit "") xs = concat xs.
Proof.
  induction xs as [|x xs IH]; [reflexivity|].
  destruct xs as [|y xs].
  - simpl. now rewrite app_nil_r.
  - change (join (lit "") (x :: y :: xs)) with (x ++ join (lit "") (y :: xs)).
    now rewrite IH.
Qed.

Lemma startsWith_app (p s : jsstring) : startsWith p (p ++ s) = true.
Proof.
  induction p as [|c p IH]; simpl; [reflexivity|].
  now rewrite N.eqb_refl, IH.
Qed.

Lemma slice_app (p s : jsstring) : slice (length p) (p ++ s) = s.
Proof. unfold slice. induction p; simpl; auto. Qed.

Lemma pop_snoc {A} (xs : list A) (x : A) : pop (xs ++ [x]) = (Some x, xs).
Proof.
  induction xs as [|y xs IH]; [reflexivity|].
  change (pop ((y :: xs) ++ [x]))
    with (match xs ++ [x] with
          | [] => (Some y, [])
          | _ :: _ => let '(l, rest') := pop (xs ++ [x]) in (l, y :: rest')
          end).
  rewrite IH. destruct xs; reflexivity.
Qed.

(** [split] is the complete lines followed by the last fragment. *)
Lemma split_cut (sep : codeunit) (s : jsstring) :
  split sep s = fst (cut sep s) ++ [snd (cut sep s)].
Proof.
  induction s as [|c s IH]; [reflexivity|].
  simpl. rewrite IH. destruct (cut sep s) as [lines rest]. simpl.
  destruct (N.eqb c sep); [reflexivity|].
  destruct lines; reflexivity.
Qed.

Lemma pop_split (sep : codeunit) (s : jsstring) :
  pop (split sep s) = (Some (snd (cut sep s)), fst (cut sep s)).
Proof. rewrite split_cut. apply pop_snoc. Qed.

(** Cutting a text delivered in two pieces: the fragment left by the first
    piece is put in front of the second. *)
Lemma cut_app (sep : codeunit) (s1 s2 : jsstring) :
  cut sep (s1 ++ s2) =
  (fst (cut sep s1) ++ fst (cut sep (snd (cut sep s1) ++ s2)),
   snd (cut sep (snd (cut sep s1) ++ s2))).
Proof.
  induction s1 as [|c s1 IH].
  - simpl. now destruct (cut sep s2).
  - simpl. rewrite IH. clear IH.
    destruct (cut sep s1) as [l1 r1]. simpl.
    destruct (N.eqb c sep) eqn:E.
    + reflexivity.
    + destruct l1 as [|l l1]; simpl.
      * rewrite E. destruct (cut sep (r1 ++ s2)) as [l2 r2]. simpl.
        destruct l2; reflexivity.
      * reflexivity.
Qed.

(** No code unit is lost: the lines, each with its line break, and the
    fragment make up the text. *)
Lemma cut_complete (sep : codeunit) (s : jsstring) :
  s = concat (map (fun l => l ++ [sep]) (fst (cut sep s))) ++ snd (cut sep s).
Proof.
  induction s as [|c s IH]; [reflexivity|].
  simpl. destruct (cut sep s) as [lines rest]. simpl in *.
  destruct (N.eqb c sep) eqn:E.
  - apply N.eqb_eq in E. subst c. simpl. now f_equal.
  - destruct lines as [|l lines]; simpl in *; now f_equal.
Qed.

(** The fragment holds no line break, so no line is ever left in it. *)
Lemma cut_rest (sep : codeunit) (s : jsstring) :
  cut sep (snd (cut sep s)) = ([], snd (cut sep s)).
Proof.
  induction s as [|c s IH]; [reflexivity|].
  simpl. destruct (cut sep s) as [lines rest]. simpl in *.
  destruct (N.eqb c sep) eqn:E; [exact IH|].
  destruct lines as [|l lines]; simpl; [|exact IH].
  now rewrite IH, E.
Qed.

End StringFacts.

(** [decode] with [{ stream: true }] does not see where a chunk ends. *)
Lemma decode_app (st : TextDecoder.state) (a b : list Byte.byte) :
  TextDecoder.decode st (a ++ b) =
  (fst (TextDecoder.decode (fst (TextDecoder.decode st a)) b),
   snd (TextDecoder.decode st a)
   ++ snd (TextDecoder.decode (fst (TextDecoder.decode st a)) b)).
Proof.
  revert st. induction a as [|x a IH]; intro st.
  - simpl. now destruct (TextDecoder.decode st b).
  - simpl. destruct (TextDecoder.step st x) as [st1 out1].
    rewrite IH. destruct (TextDecoder.decode st1 a) as [st2 out2]. simpl.
    now rewrite app_assoc.
Qed.

(* ================================================================= *)
(** ** The streaming decoder *)

Section StreamFacts.

Context `{P : Platform}.

Lemma stream_read_cut (st : StreamState) (value : list Byte.byte) :
  stream_read st value =
  (fst (cut newline (buffer st ++ snd (TextDecoder.decode (decoder st) value))),
   {| buffer :=
        snd (cut newline
                 (buffer st ++ snd (TextDecoder.decode (decoder st) value)));
      decoder := fst (TextDecoder.decode (decoder st) value) |}).
Proof.
  unfold stream_read.
  destruct (TextDecoder.decode (decoder st) value) as [d out]. simpl.
  now rewrite pop_split, or_else_some.
Qed.

Lemma stream_read_settled (st : StreamState) (value : list Byte.byte) :
  settled (snd (stream_read st value)).
Proof. rewrite stream_read_cut. apply cut_rest. Qed.

Lemma stream_read_nil (st : StreamState) :
  settled st -> stream_read st [] = ([], st).
Proof.
  intro H. rewrite stream_read_cut. simpl. rewrite app_nil_r, H.
  now destruct st.
Qed.

Lemma stream_loop_merge (st : StreamState) (a b : list Byte.byte)
    (reads : list (list Byte.byte)) :
  stream_loop st ((a ++ b) :: reads) = stream_loop st (a :: b :: reads).
Proof.
  simpl. rewrite !stream_read_cut. simpl.
  rewrite decode_app. simpl. rewrite app_assoc, cut_app. simpl.
  now rewrite flat_map_app, app_assoc.
Qed.

Lemma stream_loop_concat (reads : list (list Byte.byte)) :
  forall st, settled st ->
  stream_loop st reads = stream_loop st [concat reads].
Proof.
  induction reads as [|value reads IH]; intros st Hst.
  - simpl. now rewrite (stream_read_nil Hst).
  - change (concat (value :: reads)) with (value ++ concat reads).
    rewrite stream_loop_merge.
    change (stream_loop st (value :: reads))
      with (let '(lines, st') := stream_read st value in
            flat_map stream_line lines ++ stream_loop st' reads).
    change (stream_loop st [value; concat reads])
      with (let '(lines, st') := stream_read st value in
            flat_map stream_line lines ++ stream_loop st' [concat reads]).
    pose proof (stream_read_settled st value) as Hst'.
    destruct (stream_read st value) as [lines st']. simpl in Hst'.
    now rewrite (IH st' Hst').
Qed.

Lemma stream_init_settled : settled stream_init.
Proof. reflexivity. Qed.

(** What the generator yields: the chunks of the complete lines of the
    body, in order. *)
Lemma stream_loop_lines (reads : list (list Byte.byte)) :
  stream_loop stream_init reads =
  flat_map stream_line (body_lines (concat reads)).
Proof.
  rewrite (stream_loop_concat reads stream_init_settled).
  simpl. rewrite stream_read_cut. simpl. now rewrite app_nil_r.
Qed.

(** A line that yields nothing leaves the lines around it as they are. *)
Lemma stream_loop_skip (reads : list (list Byte.byte))
    (before after : list jsstring) (line : jsstring) :
  body_lines (concat reads) = before ++ line :: after ->
  stream_line line = [] ->
  stream_loop stream_init reads =
  flat_map stream_line before ++ flat_map stream_line after.
Proof.
  intros Hl Hs. rewrite stream_loop_lines, Hl, flat_map_app. simpl.
  now rewrite Hs.
Qed.

Lemma stream_line_data (line rest : jsstring) :
  trim line = lit "data: " ++ rest ->
  rest <> lit "[DONE]" ->
  stream_line line =
  match parseStreamChunk rest with
  | None => []
  | Some data =>
      match stream_frame data with
      | Ok (Some chunk) => [chunk]
      | _ => []
      end
  end.
Proof.
  intros Ht Hr. unfold stream_line. rewrite Ht.
  replace (eqb (lit "data: " ++ rest) (lit "data: [DONE]")) with false.
  2:{ symmetry. apply eqb_neq. intro E. apply Hr.
      change (lit "data: [DONE]") with (lit "data: " ++ lit "[DONE]") in E.
      now apply app_inv_head in E. }
  rewrite startsWith_app.
  change 6%nat with (length (lit "data: ")). rewrite slice_app.
  change (negb (truthy (lit "data: " ++ rest)) || false) with false.
  cbv iota.
  destruct (parseStreamChunk rest) as [data|]; [|reflexivity].
  destruct (stream_frame data) as [[chunk|]|e]; reflexivity.
Qed.

Lemma stream_frame_no_throw (data : OpenAIStreamChunk) (e : Exn) :
  stream_frame data <> Throw e.
Proof.
  unfold stream_frame.
  destruct (chunk_choices data) as [[|choice0 choices]|]; simpl; try discriminate.
  destruct (delta_content (stream_delta choice0)) as [content|]; try discriminate.
  destruct (truthy content); discriminate.
Qed.

(** The line of a frame whose first choice has a delta text yields the
    chunk of that text. *)
Lemma stream_line_text (line rest : jsstring) (data : OpenAIStreamChunk)
    (choice0 : StreamChoice) (others : list StreamChoice)
    (c : codeunit) (content : jsstring) :
  trim line = lit "data: " ++ rest ->
  rest <> lit "[DONE]" ->
  parseStreamChunk rest = Some data ->
  chunk_choices data = Some (choice0 :: others) ->
  delta_content (stream_delta choice0) = Some (c :: content) ->
  stream_line line =
  [text_chunk (c :: content)
     match stream_finish_reason choice0 with
     | Some reason =>
         match toUpperCase reason with
         | [] => None
         | upper => Some upper
         end
     | None => None
     end].
Proof.
  intros Ht Hr Hp Hc Hd. rewrite (stream_line_data _ Ht Hr), Hp.
  unfold stream_frame. rewrite Hc. cbn [length Nat.ltb Nat.leb nth_error].
  rewrite Hd. cbn [truthy]. unfold text_chunk. do 4 f_equal.
  destruct (stream_finish_reason choice0) as [reason|]; [|reflexivity].
  now destruct (toUpperCase reason).
Qed.

End StreamFacts.

(* ================================================================= *)
(** ** Properties of the streaming decoder *)

Section StreamClaims.

Context `{P : Platform}.

(** C1. Decoding does not depend on where the transport cuts the body: the
    chunks yielded for any sequence of reads are those yielded when the
    same bytes come as one read. At each read nothing is lost: the text
    held in the buffer followed by the text decoded from the read is the
    candidate lines, each with its line break, followed by the new buffer,
    and the decoder has taken in every byte of the read. *)
Theorem stream_loop_boundary_invariant :
  (forall reads : list (list Byte.byte),
     stream_loop stream_init reads = stream_loop stream_init [concat reads])
  /\
  (forall (st : StreamState) (value : list Byte.byte),
     buffer st ++ snd (TextDecoder.decode (decoder st) value) =
     concat (map (fun l => l ++ [newline]) (fst (stream_read st value)))
     ++ buffer (snd (stream_read st value))
     /\ decoder (snd (stream_read st value)) =
        fst (TextDecoder.decode (decoder st) value)).
Proof.
  split.
  - intro reads. apply stream_loop_concat, stream_init_settled.
  - intros st value. rewrite stream_read_cut. simpl. split; [|reflexivity].
    apply cut_complete.
Qed.

(** C2, as amended. A parsed frame with at least one choice is read at its
    first choice only. When that choice's delta carries non-empty text the
    frame yields one chunk: one candidate, role [model], one text part equal
    to the delta text, index 0, and a finishReason that is the upper-cased
    [finish_reason] when that is present and its upper-casing is not empty,
    absent otherwise. When the delta carries no text or an empty text the
    frame yields nothing. So every chunk yielded holds a non-empty text, and
    the line of a parsed frame yields the chunk of the frame and no other. *)
Theorem stream_frame_first_choice :
  (forall (data : OpenAIStreamChunk) (choice0 : StreamChoice)
          (others : list StreamChoice),
     chunk_choices data = Some (choice0 :: others) ->
     stream_frame data =
     match delta_content (stream_delta choice0) with
     | Some (c :: content) =>
         Ok (Some (text_chunk (c :: content)
                     match stream_finish_reason choice0 with
                     | Some reason =>
                         match toUpperCase reason with
                         | [] => None
                         | upper => Some upper
                         end
                     | None => None
                     end))
     | _ => Ok None
     end)
  /\
  (forall (data : OpenAIStreamChunk) (chunk : GenerateContentResponse),
     stream_frame data = Ok (Some chunk) ->
     exists (c : codeunit) (content : jsstring) (reason : option jsstring),
       chunk = text_chunk (c :: content) reason)
  /\
  (forall (line rest : jsstring) (data : OpenAIStreamChunk),
     trim line = lit "data: " ++ rest ->
     rest <> lit "[DONE]" ->
     parseStreamChunk rest = Some data ->
     stream_line line =
     match stream_frame data with
     | Ok (Some chunk) => [chunk]
     | _ => []
     end).
Proof.
  assert (H1 : forall data choice0 others,
             chunk_choices data = Some (choice0 :: others) ->
             stream_frame data =
             match delta_content (stream_delta choice0) with
             | Some (c :: content) =>
                 Ok (Some (text_chunk (c :: content)
                             match stream_finish_reason choice0 with
                             | Some reason =>
                                 match toUpperCase reason with
                                 | [] => None
                                 | upper => Some upper
                                 end
                             | None => None
                             end))
             | _ => Ok None
             end).
  { intros data choice0 others H. unfold stream_frame. rewrite H. simpl.
    destruct (delta_content (stream_delta choice0)) as [[|c content]|];
      try reflexivity.
    simpl. unfold text_chunk. do 4 f_equal.
    destruct (stream_finish_reason choice0) as [reason|]; [|reflexivity].
    now destruct (toUpperCase reason). }
  split; [exact H1|]. split.
  - intros data chunk H.
    destruct (chunk_choices data) as [[|choice0 others]|] eqn:E.
    + unfold stream_frame in H. rewrite E in H. discriminate.
    + rewrite (H1 _ _ _ E) in H.
      destruct (delta_content (stream_delta choice0)) as [[|c content]|];
        try discriminate.
      injection H as <-. eauto.
    + unfold stream_frame in H. rewrite E in H. discriminate.
  - intros line rest data Ht Hr Hp.
    rewrite (stream_line_data _ Ht Hr), Hp.
    destruct (stream_frame data) as [[chunk|]|e]; reflexivity.
Qed.

(** C3. A line that is empty once trimmed, or is the terminator, yields
    nothing; so does a [data: ] line whose remainder [JSON.parse] rejects.
    Neither ends the sequence: the lines before and after such a line in
    the body yield what they yield without it, and a later line that holds
    a frame whose first choice has a delta text does yield the chunk of
    that text, at its place in the sequence. *)
Theorem stream_line_skipped :
  (forall line : jsstring,
     trim line = lit "" \/ trim line = lit "data: [DONE]" ->
     stream_line line = [])
  /\
  (forall line rest : jsstring,
     trim line = lit "data: " ++ rest ->
     parseStreamChunk rest = None ->
     stream_line line = [])
  /\
  (forall (reads : list (list Byte.byte)) (before after : list jsstring)
          (line rest : jsstring),
     body_lines (concat reads) = before ++ line :: after ->
     trim line = lit "" \/ trim line = lit "data: [DONE]" \/
     (trim line = lit "data: " ++ rest /\ parseStreamChunk rest = None) ->
     stream_loop stream_init reads =
     flat_map stream_line before ++ flat_map stream_line after)
  /\
  (forall (reads : list (list Byte.byte))
          (before between after : list jsstring)
          (line rest valid json : jsstring) (data : OpenAIStreamChunk)
          (choice0 : StreamChoice) (others : list StreamChoice)
          (c : codeunit) (content : jsstring),
     body_lines (concat reads) =
       before ++ line :: between ++ valid :: after ->
     trim line = lit "" \/ trim line = lit "data: [DONE]" \/
     (trim line = lit "data: " ++ rest /\ parseStreamChunk rest = None) ->
     trim valid = lit "data: " ++ json ->
     json <> lit "[DONE]" ->
     parseStreamChunk json = Some data ->
     chunk_choices data = Some (choice0 :: others) ->
     delta_content (stream_delta choice0) = Some (c :: content) ->
     stream_loop stream_init reads =
     flat_map stream_line before
     ++ flat_map stream_line between
     ++ text_chunk (c :: content)
          match stream_finish_reason choice0 with
          | Some reason =>
              match toUpperCase reason with
              | [] => None
              | upper => Some upper
              end
          | None => None
          end
        :: flat_map stream_line after).
Proof.
  assert (H1 : forall line : jsstring,
             trim line = lit "" \/ trim line = lit "data: [DONE]" ->
             stream_line line = []).
  { intros line [H|H]; unfold stream_line; rewrite H; reflexivity. }
  assert (H2 : forall line rest : jsstring,
             trim line = lit "data: " ++ rest ->
             parseStreamChunk rest = None ->
             stream_line line = []).
  { intros line rest Ht Hp.
    destruct (list_eq_dec N.eq_dec rest (lit "[DONE]")) as [E|E].
    - apply H1. right. now rewrite Ht, E.
    - rewrite (stream_line_data _ Ht E). now rewrite Hp. }
  assert (H3 : forall line rest : jsstring,
             trim line = lit "" \/ trim line = lit "data: [DONE]" \/
             (trim line = lit "data: " ++ rest /\
              parseStreamChunk rest = None) ->
             stream_line line = []).
  { intros line rest [H|[H|[Ht Hp]]]; eauto. }
  split; [exact H1|]. split; [exact H2|]. split.
  - intros reads before after line rest Hl Hs.
    apply (stream_loop_skip _ _ _ _ Hl). exact (H3 _ _ Hs).
  - intros reads before between after line rest valid json data choice0
           others c content Hl Hs Ht Hj Hp Hc Hd.
    rewrite (stream_loop_skip _ _ _ _ Hl (H3 _ _ Hs)).
    rewrite flat_map_app. cbn [flat_map].
    now rewrite (stream_line_text _ Ht Hj Hp Hc Hd).
Qed.

(** C10. A parsed frame whose [choices] is absent or empty yields no chunk
    and throws nothing; no frame makes the access to the first choice
    throw; and the line of such a frame is passed over like a skipped
    line, the lines around it yielding their chunks. *)
Theorem stream_frame_no_choices :
  (forall data : OpenAIStreamChunk,
     chunk_choices data = None \/ chunk_choices data = Some [] ->
     stream_frame data = Ok None)
  /\
  (forall (data : OpenAIStreamChunk) (e : Exn), stream_frame data <> Throw e)
  /\
  (forall (reads : list (list Byte.byte)) (before after : list jsstring)
          (line rest : jsstring) (data : OpenAIStreamChunk),
     body_lines (concat reads) = before ++ line :: after ->
     trim line = lit "data: " ++ rest ->
     parseStreamChunk rest = Some data ->
     chunk_choices data = None \/ chunk_choices data = Some [] ->
     stream_line line = [] /\
     stream_loop stream_init reads =
     flat_map stream_line before ++ flat_map stream_line after).
Proof.
  assert (H1 : forall data : OpenAIStreamChunk,
             chunk_choices data = None \/ chunk_choices data = Some [] ->
             stream_frame data = Ok None).
  { intros data [H|H]; unfold stream_frame; rewrite H; reflexivity. }
  split; [exact H1|]. split; [exact stream_frame_no_throw|].
  intros reads before after line rest data Hl Ht Hp Hc.
  assert (Hs : stream_line line = []).
  { destruct (list_eq_dec N.eq_dec rest (lit "[DONE]")) as [E|E].
    - unfold stream_line. now rewrite Ht, E.
    - rewrite (stream_line_data _ Ht E), Hp. now rewrite (H1 data Hc). }
  split; [exact Hs|]. exact (stream_loop_skip _ _ _ _ Hl Hs).
Qed.

End StreamClaims.

(* ================================================================= *)
(** ** Requests and answers *)

Section MessageFacts.

Lemma startsWith_prefix (p s : jsstring) :
  startsWith p s = true <-> exists rest, s = p ++ rest.
Proof.
  split.
  - revert s. induction p as [|a p IH]; intros s H.
    + now exists s.
    + destruct s as [|b s]; [discriminate|]. simpl in H.
      apply andb_prop in H. destruct H as [Hab H].
      apply N.eqb_eq in Hab. subst b.
      destruct (IH s H) as [rest ->]. now exists rest.
  - intros [rest ->]. apply startsWith_app.
Qed.

Lemma part_text_carried (part : Part) :
  match part_text part with
  | Some t => if truthy t then t else lit ""
  | None => lit ""
  end =
  match carried_text part with Some t => t | None => [] end.
Proof.
  unfold carried_text. now destruct (part_text part) as [[|c t]|].
Qed.

Lemma toOpenAIRole_cases (role : option jsstring) :
  (role = None \/ role = Some (lit "") \/ role = Some (lit "user") ->
   toOpenAIRole (or_else role (lit "user")) = lit "user")
  /\ (role = Some (lit "model") ->
      toOpenAIRole (or_else role (lit "user")) = lit "assistant")
  /\ (forall r, role = Some r ->
      r <> lit "" -> r <> lit "user" -> r <> lit "model" ->
      toOpenAIRole (or_else role (lit "user")) = lit "system").
Proof.
  repeat split.
  - intros [->|[->| ->]]; reflexivity.
  - intros ->. reflexivity.
  - intros r -> H0 H1 H2. simpl.
    destruct r as [|c r]; [now elim H0|]. simpl. unfold toOpenAIRole.
    apply eqb_neq in H1, H2. now rewrite H1, H2.
Qed.

End MessageFacts.

Section MessageClaims.

(** C8, as amended. Turn [i] gives message [i], one message per turn. The
    role of the message is [user] for the role [user] and for an absent or
    empty role, [assistant] for [model], [system] for any other role. Its
    content is the texts carried by the parts of the turn, in order, with
    nothing in between and nothing for a part that carries no text; it is
    empty for a turn without parts. *)
Theorem toOpenAIMessages_turns (contents : list Content) :
  length (toOpenAIMessages contents) = length contents /\
  forall (i : nat) (content : Content),
    nth_error contents i = Some content ->
    exists message : OpenAIMessage,
      nth_error (toOpenAIMessages contents) i = Some message /\
      msg_content message = flattened_text content /\
      (content_parts content = None \/ content_parts content = Some [] ->
       msg_content message = lit "") /\
      (content_role content = None \/ content_role content = Some (lit "") \/
       content_role content = Some (lit "user") ->
       msg_role message = lit "user") /\
      (content_role content = Some (lit "model") ->
       msg_role message = lit "assistant") /\
      (forall role : jsstring,
         content_role content = Some role ->
         role <> lit "" -> role <> lit "user" -> role <> lit "model" ->
         msg_role message = lit "system").
Proof.
  split.
  - unfold toOpenAIMessages. apply length_map.
  - intros i content Hi.
    unfold toOpenAIMessages. rewrite nth_error_map, Hi. simpl.
    eexists. split; [reflexivity|]. simpl.
    assert (Hc : join (lit "")
                   (map (fun part =>
                           match part_text part with
                           | Some t => if truthy t then t else lit ""
                           | None => lit ""
                           end) (or_array (content_parts content) [])) =
                 flattened_text content).
    { rewrite join_empty. unfold flattened_text, or_array. f_equal.
      apply map_ext. exact part_text_carried. }
    split; [exact Hc|]. split.
    + intros [H|H]; rewrite H; reflexivity.
    + apply toOpenAIRole_cases.
Qed.

End MessageClaims.

Section HttpFacts.

Context `{P : Platform}.

(** [generateContent], step by step. *)
Lemma generateContent_run (this : OllamaContentGenerator)
    (request : GenerateContentParameters) (id : jsstring) (n : Net) :
  generateContent this request id n =
  let req := chat_request this request false in
  let n' := {| net_world := snd (fetch req (net_world n));
               net_log := net_log n ++ [req] |} in
  let response := fst (fetch req (net_world n)) in
  if resp_ok response then
    match parseCompletion (resp_text response) with
    | Some data =>
        (Ok {| candidates :=
                 map (fun choice =>
                        {| cand_content :=
                             {| content_role := Some (lit "model");
                                content_parts :=
                                  Some [{| part_text :=
                                             Some (msg_content
                                                     (choice_message choice));
                                           part_inlineData := None |}] |};
                           cand_finishReason :=
                             Some (toUpperCase (choice_finish_reason choice));
                           cand_index := choice_index choice |})
                     (completion_choices data);
               usageMetadata :=
                 Some {| promptTokenCount :=
                           prompt_tokens (completion_usage data);
                         candidatesTokenCount :=
                           completion_tokens (completion_usage data);
                         totalTokenCount :=
                           total_tokens (completion_usage data) |} |}, n')
    | None => (Throw SyntaxError, n')
    end
  else (Throw (api_error response), n').
Proof.
  unfold generateContent, bind, await_fetch, chat_request, api_error. simpl.
  destruct (fetch _ (net_world n)) as [response w]. simpl.
  destruct (resp_ok response); simpl; [|reflexivity].
  unfold response_json, bind.
  destruct (parseCompletion (resp_text response)); reflexivity.
Qed.

(** [generateContentStream], step by step. *)
Lemma generateContentStream_run (this : OllamaContentGenerator)
    (request : GenerateContentParameters) (id : jsstring) (n : Net) :
  generateContentStream this request id n =
  let req := chat_request this request true in
  let n' := {| net_world := snd (fetch req (net_world n));
               net_log := net_log n ++ [req] |} in
  let response := fst (fetch req (net_world n)) in
  if resp_ok response then
    match resp_body response with
    | Some reads => (Ok (stream_loop stream_init reads), n')
    | None => (Throw (Error (lit "No response body from Ollama")), n')
    end
  else (Throw (api_error response), n').
Proof.
  unfold generateContentStream, bind, await_fetch, chat_request, api_error.
  simpl. destruct (fetch _ (net_world n)) as [response w]. simpl.
  destruct (resp_ok response); simpl; [|reflexivity].
  destruct (resp_body response); reflexivity.
Qed.

End HttpFacts.

(* ================================================================= *)
(** ** The error message of a failed chat-completions call *)

Section ErrorFacts.

Lemma lit_inj (s t : String.string) : lit s = lit t -> s = t.
Proof.
  revert t. induction s as [|a s IH]; destruct t as [|b t];
    try discriminate; [reflexivity|].
  unfold lit. simpl. intro H. injection H as Hab Hst.
  f_equal.
  - rewrite <- (ascii_N_embedding a), <- (ascii_N_embedding b). now f_equal.
  - now apply IH.
Qed.

Lemma digits_of_uint (d : Decimal.uint) :
  Forall is_digit (lit (DecimalString.NilEmpty.string_of_uint d)).
Proof.
  induction d; simpl; constructor; try exact IHd;
    unfold is_digit; simpl; lia.
Qed.

Lemma toString_digits (n : N) : Forall is_digit (toString n).
Proof.
  unfold toString, DecimalString.NilZero.string_of_uint.
  destruct (N.to_uint n) eqn:E; try (rewrite <- E; apply digits_of_uint).
  repeat constructor; unfold is_digit; simpl; lia.
Qed.

Lemma to_uint_not_nil (n : N) : N.to_uint n <> Decimal.Nil.
Proof.
  intro H. pose proof (DecimalN.Unsigned.to_of (N.to_uint n)) as E.
  rewrite DecimalN.Unsigned.of_to in E. rewrite H in E. simpl in E.
  unfold Decimal.unorm in E. simpl in E. congruence.
Qed.

Lemma toString_inj (n m : N) : toString n = toString m -> n = m.
Proof.
  unfold toString. intro H. apply lit_inj in H.
  apply DecimalN.Unsigned.to_uint_inj.
  pose proof (DecimalString.NilZero.usu _ (to_uint_not_nil n)) as Hn.
  pose proof (DecimalString.NilZero.usu _ (to_uint_not_nil m)) as Hm.
  rewrite H in Hn. congruence.
Qed.

(** Two runs of digits, each followed by a space, that begin equal texts
    are the same run. *)
Lemma digits_then_space (d1 d2 x y : jsstring) :
  Forall is_digit d1 -> Forall is_digit d2 ->
  d1 ++ 32%N :: x = d2 ++ 32%N :: y -> d1 = d2 /\ x = y.
Proof.
  intro H1. revert d2. induction H1 as [|c d1 Hc _ IH]; intros d2 H2 E.
  - destruct H2 as [|c d2 Hc _]; simpl in E.
    + now injection E.
    + injection E as E _. unfold is_digit in Hc. lia.
  - destruct H2 as [|c' d2 Hc' H2]; simpl in E.
    + injection E as E _. unfold is_digit in Hc. lia.
    + injection E as E1 E2. destruct (IH d2 H2 E2) as [-> ->]. now subst.
Qed.

(** The message tells the status and the body apart. *)
Lemma api_error_inj (r1 r2 : Response) :
  api_error r1 = api_error r2 ->
  resp_status r1 = resp_status r2 /\ resp_text r1 = resp_text r2.
Proof.
  unfold api_error. intro H.
  assert (E : toString (resp_status r1) ++ 32%N :: lit "- " ++ resp_text r1 =
              toString (resp_status r2) ++ 32%N :: lit "- " ++ resp_text r2).
  { injection H as H. exact H. }
  apply digits_then_space in E; try apply toString_digits.
  destruct E as [Hs Ht]. apply app_inv_head in Ht.
  split; [now apply toString_inj | exact Ht].
Qed.

End ErrorFacts.

(* ================================================================= *)
(** ** Properties of generateContent and generateContentStream *)

Section GenerateClaims.

Context `{P : Platform}.

(** C4. When the backend answers the request with a 2xx status and a body
    that parses as a completion with [n] choices, [generateContent] returns
    [n] candidates, candidate [i] built from choice [i]: role [model], one
    text part equal to the message content, the finish reason upper-cased,
    the index copied; and the usage metadata copies the three token counts
    of [usage]. *)
Theorem generateContent_candidates (this : OllamaContentGenerator)
    (request : GenerateContentParameters) (id : jsstring) (n : Net)
    (response : Response) (w : World) (data : OpenAICompletionResponse) :
  fetch (chat_request this request false) (net_world n) = (response, w) ->
  resp_ok response = true ->
  parseCompletion (resp_text response) = Some data ->
  exists result : GenerateContentResponse,
    fst (generateContent this request id n) = Ok result /\
    length (candidates result) = length (completion_choices data) /\
    (forall (i : nat) (choice : CompletionChoice),
       nth_error (completion_choices data) i = Some choice ->
       nth_error (candidates result) i =
       Some {| cand_content :=
                 {| content_role := Some (lit "model");
                    content_parts :=
                      Some [{| part_text :=
                                 Some (msg_content (choice_message choice));
                               part_inlineData := None |}] |};
               cand_finishReason :=
                 Some (toUpperCase (choice_finish_reason choice));
               cand_index := choice_index choice |}) /\
    usageMetadata result =
    Some {| promptTokenCount := prompt_tokens (completion_usage data);
            candidatesTokenCount := completion_tokens (completion_usage data);
            totalTokenCount := total_tokens (completion_usage data) |}.
Proof.
  intros Hf Hok Hp. rewrite generateContent_run. simpl.
  rewrite Hf. simpl. rewrite Hok, Hp. simpl.
  eexists. split; [reflexivity|]. simpl. split; [apply length_map|].
  split; [|reflexivity].
  intros i choice Hi. now rewrite nth_error_map, Hi.
Qed.

(** C5. When the backend answers the chat-completions request with a
    status outside 200-299, [generateContent] throws an error whose message
    is [Ollama API error: <status> - <body>], and [generateContentStream]
    throws the same error instead of returning a generator, so that nothing
    is yielded. Status and body can be read back from the message: two
    answers with the same message have the same status and the same body. *)
Theorem chat_completions_http_error (this : OllamaContentGenerator)
    (request : GenerateContentParameters) (id : jsstring) (n : Net) :
  (forall (response : Response) (w : World),
     fetch (chat_request this request false) (net_world n) = (response, w) ->
     resp_ok response = false ->
     generateContent this request id n =
     (Throw (Error (lit "Ollama API error: " ++ toString (resp_status response)
                    ++ lit " - " ++ resp_text response)),
      {| net_world := w;
         net_log := net_log n ++ [chat_request this request false] |}))
  /\
  (forall (response : Response) (w : World),
     fetch (chat_request this request true) (net_world n) = (response, w) ->
     resp_ok response = false ->
     generateContentStream this request id n =
     (Throw (Error (lit "Ollama API error: " ++ toString (resp_status response)
                    ++ lit " - " ++ resp_text response)),
      {| net_world := w;
         net_log := net_log n ++ [chat_request this request true] |}))
  /\
  (forall r1 r2 : Response,
     api_error r1 = api_error r2 ->
     resp_status r1 = resp_status r2 /\ resp_text r1 = resp_text r2).
Proof.
  split; [|split].
  - intros response w Hf Hok. rewrite generateContent_run. simpl.
    rewrite Hf. simpl. now rewrite Hok.
  - intros response w Hf Hok. rewrite generateContentStream_run. simpl.
    rewrite Hf. simpl. now rewrite Hok.
  - exact api_error_inj.
Qed.

(** C9. [generateContent] and [generateContentStream] each send one
    chat-completions request. Its model is the generator's configured model
    when the requested model name begins with [gemini], and the requested
    name itself otherwise. *)
Theorem chat_request_effective_model (this : OllamaContentGenerator)
    (request : GenerateContentParameters) (id : jsstring) (n : Net) :
  net_log (snd (generateContent this request id n)) =
    net_log n ++ [chat_request this request false]
  /\
  net_log (snd (generateContentStream this request id n)) =
    net_log n ++ [chat_request this request true]
  /\
  forall stream : bool,
    ((exists rest, gen_model request = lit "gemini" ++ rest) ->
     body_model (req_body (chat_request this request stream)) = model this)
    /\
    (~ (exists rest, gen_model request = lit "gemini" ++ rest) ->
     body_model (req_body (chat_request this request stream)) =
     gen_model request).
Proof.
  split; [|split].
  - rewrite generateContent_run. simpl.
    destruct (resp_ok _); [destruct (parseCompletion _)|]; reflexivity.
  - rewrite generateContentStream_run. simpl.
    destruct (resp_ok _); [destruct (resp_body _)|]; reflexivity.
  - intro stream. unfold chat_request, body_model. cbn [req_body].
    split; intro H.
    + apply startsWith_prefix in H. now rewrite H.
    + destruct (startsWith (lit "gemini") (gen_model request)) eqn:E;
        [|reflexivity].
      apply startsWith_prefix in E. contradiction.
Qed.

End GenerateClaims.

(* ================================================================= *)
(** ** embedContent *)

Section EmbedFacts.

Context `{P : Platform}.

Lemma embed_texts_parts (parts : list Part) (texts : list jsstring) :
  fold_left (fun texts part =>
               match part_text part with
               | Some t => if truthy t then texts ++ [t] else texts
               | None => texts
               end) parts texts =
  texts ++ flat_map (fun part => match carried_text part with
                                 | Some t => [t]
                                 | None => []
                                 end) parts.
Proof.
  revert texts. induction parts as [|part parts IH]; intro texts; simpl.
  - now rewrite app_nil_r.
  - rewrite IH. unfold carried_text.
    destruct (part_text part) as [[|c t]|]; simpl; try reflexivity.
    now rewrite <- app_assoc.
Qed.

Lemma embed_texts_from (contents : list Content) (texts : list jsstring) :
  fold_left
    (fun texts content =>
       match content_parts content with
       | Some parts =>
           fold_left
             (fun texts part =>
                match part_text part with
                | Some t => if truthy t then texts ++ [t] else texts
                | None => texts
                end)
             parts texts
       | None => texts
       end)
    contents texts =
  texts ++ text_fragments contents.
Proof.
  revert texts. induction contents as [|content contents IH]; intro texts.
  - simpl. now rewrite app_nil_r.
  - simpl. rewrite IH.
    destruct (content_parts content) as [parts|]; simpl; [|reflexivity].
    now rewrite embed_texts_parts, <- app_assoc.
Qed.

Lemma embed_texts_fragments (contents : list Content) :
  embed_texts contents = text_fragments contents.
Proof. unfold embed_texts. now rewrite embed_texts_from. Qed.

(** Reading [data.data[0]] is guarded, so [embed_push] does not throw. *)
Lemma embed_push_ok (data : EmbeddingList) (acc : list ContentEmbedding) :
  embed_push data acc =
  Ok (acc ++ match list_data data with
             | Some (item :: _) => [{| values := item_embedding item |}]
             | _ => []
             end).
Proof.
  unfold embed_push.
  destruct (list_data data) as [[|item items]|]; simpl;
    now rewrite ?app_nil_r.
Qed.


Lemma serve_length (reqs : list Request) :
  forall w, length (fst (serve reqs w)) = length reqs.
Proof.
  induction reqs as [|req reqs IH]; intro w; simpl; [reflexivity|].
  destruct (fetch req w) as [r w1]. specialize (IH w1).
  destruct (serve reqs w1). simpl in *. now rewrite IH.
Qed.

(** The loop over the texts when every answer can be read. *)
Lemma embed_loop_ok (this : OllamaContentGenerator) (model : jsstring)
    (texts : list jsstring) :
  forall (acc : list ContentEmbedding) (n : Net)
         (responses : list Response) (w : World),
    serve (map (embedding_request this model) texts) (net_world n)
      = (responses, w) ->
    Forall embedding_answer responses ->
    embed_loop this model texts acc n =
    (Ok (acc ++ flat_map first_embedding responses),
     {| net_world := w;
        net_log := net_log n ++ map (embedding_request this model) texts |}).
Proof.
  induction texts as [|input texts IH]; intros acc n responses w Hs Ha.
  - simpl in Hs. injection Hs as <- <-. simpl. unfold ret.
    rewrite !app_nil_r. now destruct n.
  - simpl in Hs.
    destruct (fetch (embedding_request this model input) (net_world n))
      as [r w1] eqn:Hf.
    destruct (serve (map (embedding_request this model) texts) w1)
      as [rs w2] eqn:Hs'.
    injection Hs as <- <-.
    inversion Ha as [|r' rs' [Hok [data Hp]] Hrs]; subst.
    simpl. unfold bind at 1, await_fetch.
    fold (embedding_request this model input). rewrite Hf, Hok. simpl.
    unfold bind, response_json. rewrite Hp. unfold ret.
    rewrite embed_push_ok.
    rewrite (IH _ {| net_world := w1;
                     net_log := net_log n
                                ++ [embedding_request this model input] |}
                rs w2 Hs' Hrs).
    simpl. unfold first_embedding at 2. rewrite Hp.
    rewrite <- !app_assoc. simpl.
    destruct data as [[[|item items]|]]; reflexivity.
Qed.

(** The loop over the texts when an answer is not a success: the error is
    thrown at that text, and no request is sent for the texts after it. *)
Lemma embed_loop_abort (this : OllamaContentGenerator) (model : jsstring)
    (texts1 : list jsstring) (input : jsstring) (texts2 : list jsstring) :
  forall (acc : list ContentEmbedding) (n : Net)
         (responses : list Response) (w : World)
         (response : Response) (w' : World),
    serve (map (embedding_request this model) texts1) (net_world n)
      = (responses, w) ->
    Forall embedding_answer responses ->
    fetch (embedding_request this model input) w = (response, w') ->
    resp_ok response = false ->
    embed_loop this model (texts1 ++ input :: texts2) acc n =
    (Throw (Error (lit "Ollama Embedding Error: "
                   ++ resp_statusText response)),
     {| net_world := w';
        net_log := net_log n
                   ++ map (embedding_request this model) texts1
                   ++ [embedding_request this model input] |}).
Proof.
  induction texts1 as [|t texts1 IH];
    intros acc n responses w response w' Hs Ha Hf Hok.
  - simpl in Hs. injection Hs as <- <-. simpl.
    unfold bind, await_fetch.
    fold (embedding_request this model input). rewrite Hf, Hok. reflexivity.
  - simpl in Hs.
    destruct (fetch (embedding_request this model t) (net_world n))
      as [r w1] eqn:Hf1.
    destruct (serve (map (embedding_request this model) texts1) w1)
      as [rs w2] eqn:Hs'.
    injection Hs as <- <-.
    inversion Ha as [|r' rs' [Hok1 [data Hp]] Hrs]; subst.
    simpl. unfold bind at 1, await_fetch.
    fold (embedding_request this model t). rewrite Hf1, Hok1. simpl.
    unfold bind, response_json. rewrite Hp. unfold ret.
    rewrite embed_push_ok.
    rewrite (IH _ {| net_world := w1;
                     net_log := net_log n
                                ++ [embedding_request this model t] |}
                rs w2 response w' Hs' Hrs Hf Hok).
    simpl. now rewrite <- !app_assoc.
Qed.


End EmbedFacts.

Section EmbedClaims.

Context `{P : Platform}.


(** What [embedContent] does with a failed answer. When the answer to the
    request for one of the texts has a status outside 200-299, the answers
    before it having been read, [embedContent] throws an error whose message
    is [Ollama Embedding Error: <status text>]; no request is sent for the
    texts after it and no embedding is returned. *)
Theorem embedContent_http_error (this : OllamaContentGenerator)
    (request : EmbedContentParameters) (n : Net)
    (texts1 : list jsstring) (input : jsstring) (texts2 : list jsstring)
    (responses : list Response) (w : World)
    (response : Response) (w' : World) :
  let model := if startsWith (lit "gemini") (embed_model request)
               then model this else embed_model request in
  text_fragments (normalizeContents (embed_contents request))
    = texts1 ++ input :: texts2 ->
  serve (map (embedding_request this model) texts1) (net_world n)
    = (responses, w) ->
  Forall embedding_answer responses ->
  fetch (embedding_request this model input) w = (response, w') ->
  resp_ok response = false ->
  embedContent this request n =
  (Throw (Error (lit "Ollama Embedding Error: " ++ resp_statusText response)),
   {| net_world := w';
      net_log := net_log n
                 ++ map (embedding_request this model) texts1
                 ++ [embedding_request this model input] |}).
Proof.
  intros model Ht Hs Ha Hf Hok.
  unfold embedContent, bind. rewrite embed_texts_fragments, Ht.
  fold model.
  now rewrite (embed_loop_abort this model texts1 input texts2 [] n
                 Hs Ha Hf Hok).
Qed.

End EmbedClaims.

(* ================================================================= *)
(** ** The properties on the scripted backend *)

Module Runs.

Import Demo.

(** A body cut in the middle of its first [data: ] line yields what the
    whole body yields. *)
Example stream_loop_cut_in_data_line :
  @stream_loop platform stream_init
    [firstn 3 (bytes stream_body); skipn 3 (bytes stream_body)] =
  [text_chunk (lit "Hel") None; text_chunk (lit "lo") (Some (lit "STOP"))]
  /\
  @stream_loop platform stream_init [bytes stream_body] =
  [text_chunk (lit "Hel") None; text_chunk (lit "lo") (Some (lit "STOP"))].
Proof. split; vm_compute; reflexivity. Qed.

(** A character of several bytes cut between two reads is decoded whole. *)
Example decode_cut_in_character :
  snd (TextDecoder.decode
         (fst (TextDecoder.decode TextDecoder.init [Byte.xe2; Byte.x82]))
         [Byte.xac]) = [8364%N].
Proof. reflexivity. Qed.

Lemma stream_frame_first_choice_witness :
  chunk_choices (frame (Some "lo") (Some "stop")) =
    Some [{| stream_index := 0%Q;
             stream_delta := {| delta_content := Some (lit "lo") |};
             stream_finish_reason := Some (lit "stop") |}]
  /\
  @stream_frame platform (frame (Some "lo") (Some "stop")) =
  Ok (Some (text_chunk (lit "lo") (Some (lit "STOP"))))
  /\
  @stream_line platform (json (String.append "data: " frame_text_stop)) =
  [text_chunk (lit "lo") (Some (lit "STOP"))].
Proof.
  destruct (@stream_frame_first_choice platform) as [H1 [_ H3]].
  split; [reflexivity|]. split.
  - exact (H1 (frame (Some "lo") (Some "stop")) _ _ eq_refl).
  - rewrite (H3 _ (json frame_text_stop) (frame (Some "lo") (Some "stop"))).
    + reflexivity.
    + vm_compute; reflexivity.
    + discriminate.
    + vm_compute; reflexivity.
Defined.

(** The claim of C2 fails on a frame whose [finish_reason] is the empty
    string: the chunk has no finishReason, not the empty one. *)
Lemma stream_frame_empty_finish_reason :
  @stream_frame platform (frame (Some "x") (Some "")) =
  Ok (Some (text_chunk (lit "x") None))
  /\
  @stream_frame platform (frame (Some "x") (Some "")) <>
  Ok (Some (text_chunk (lit "x")
              (option_map (@toUpperCase platform) (Some (lit ""))))).
Proof. split; [reflexivity | discriminate]. Qed.

Lemma stream_line_skipped_witness :
  trim (lit "  ") = lit ""
  /\ @stream_line platform (lit "  ") = []
  /\ trim (lit "data: {oops") = lit "data: " ++ lit "{oops"
  /\ @parseStreamChunk platform (lit "{oops") = None
  /\ @stream_line platform (lit "data: {oops") = []
  /\ body_lines (concat [firstn 100 (bytes stream_body);
                         skipn 100 (bytes stream_body)]) =
     [json (String.append "data: " frame_text_hello); lit ""]
     ++ lit "data: {oops"
     :: [json (String.append "data: " frame_text_stop); lit "";
         lit "data: [DONE]"]
  /\ @stream_loop platform stream_init
       [firstn 100 (bytes stream_body); skipn 100 (bytes stream_body)] =
     flat_map (@stream_line platform)
       [json (String.append "data: " frame_text_hello); lit ""]
     ++ flat_map (@stream_line platform)
          [json (String.append "data: " frame_text_stop); lit "";
           lit "data: [DONE]"]
  /\ @parseStreamChunk platform (json frame_text_stop)
     = Some (frame (Some "lo") (Some "stop"))
  /\ @stream_loop platform stream_init
       [firstn 100 (bytes stream_body); skipn 100 (bytes stream_body)] =
     [text_chunk (lit "Hel") None; text_chunk (lit "lo") (Some (lit "STOP"))].
Proof.
  destruct (@stream_line_skipped platform) as [H1 [H2 [H3 H4]]].
  split; [reflexivity|].
  split; [apply H1; left; reflexivity|].
  split; [reflexivity|].
  split; [reflexivity|].
  split; [apply (H2 _ (lit "{oops")); reflexivity|].
  split; [vm_compute; reflexivity|].
  split.
  { apply (H3 _ _ _ (lit "data: {oops") (lit "{oops")).
    - vm_compute; reflexivity.
    - right; right; split; reflexivity. }
  split; [vm_compute; reflexivity|].
  rewrite (H4 [firstn 100 (bytes stream_body); skipn 100 (bytes stream_body)]
              [json (String.append "data: " frame_text_hello); lit ""]
              []
              [lit ""; lit "data: [DONE]"]
              (lit "data: {oops") (lit "{oops")
              (json (String.append "data: " frame_text_stop))
              (json frame_text_stop)
              (frame (Some "lo") (Some "stop"))
              {| stream_index := 0%Q;
                 stream_delta := {| delta_content := Some (lit "lo") |};
                 stream_finish_reason := Some (lit "stop") |}
              [] 108%N [111%N]).
  - vm_compute; reflexivity.
  - vm_compute; reflexivity.
  - right; right; split; reflexivity.
  - vm_compute; reflexivity.
  - discriminate.
  - vm_compute; reflexivity.
  - reflexivity.
  - reflexivity.
Defined.

Lemma stream_frame_no_choices_witness :
  chunk_choices frame_nochoices = Some []
  /\ @stream_frame platform frame_nochoices = Ok None
  /\ @stream_line platform (json (String.append "data: " frame_text_nochoices))
     = []
  /\ @stream_loop platform stream_init
       [bytes nochoices_body] =
     flat_map (@stream_line platform) []
     ++ flat_map (@stream_line platform) (body_lines (bytes stream_body)).
Proof.
  destruct (@stream_frame_no_choices platform) as [H1 [_ H3]].
  split; [reflexivity|].
  split; [apply H1; right; reflexivity|].
  destruct (H3 [bytes nochoices_body]
               [] (body_lines (bytes stream_body))
               (json (String.append "data: " frame_text_nochoices))
               (json frame_text_nochoices) frame_nochoices) as [Ha Hb].
  - vm_compute; reflexivity.
  - vm_compute; reflexivity.
  - vm_compute; reflexivity.
  - right; reflexivity.
  - split; [exact Ha | exact Hb].
Defined.

Lemma toOpenAIMessages_turns_witness :
  let turn := {| content_role := Some (lit "model");
                 content_parts := Some [text_part "A"; image_part;
                                        text_part "B"] |} in
  nth_error [ {| content_role := None; content_parts := None |}; turn ] 1
    = Some turn
  /\ nth_error
       (toOpenAIMessages
          [ {| content_role := None; content_parts := None |}; turn ]) 1
     = Some {| msg_role := lit "assistant"; msg_content := lit "AB" |}.
Proof.
  intro turn. split; [reflexivity|].
  destruct (toOpenAIMessages_turns
              [ {| content_role := None; content_parts := None |}; turn ])
    as [_ H].
  destruct (H 1 turn eq_refl) as [message [Hn [Hc [_ [_ [Hr _]]]]]].
  rewrite Hn. f_equal. destruct message as [role content]. simpl in *.
  rewrite Hc, (Hr eq_refl). reflexivity.
Defined.

(** The claim of C8 fails on a turn without a role: its message has the
    role [user], not [system]. *)
Lemma toOpenAIMessages_absent_role :
  map msg_role
      (toOpenAIMessages [ {| content_role := None; content_parts := None |} ])
  = [lit "user"]
  /\
  map msg_role
      (toOpenAIMessages [ {| content_role := None; content_parts := None |} ])
  <> [lit "system"].
Proof. split; [reflexivity | discriminate]. Qed.

Lemma generateContent_candidates_witness :
  @fetch platform (chat_request generator (ask "gemini-pro") false)
         [response 200 "OK" completion_text None]
    = (response 200 "OK" completion_text None, [])
  /\ resp_ok (response 200 "OK" completion_text None) = true
  /\ exists result : GenerateContentResponse,
       fst (@generateContent platform generator (ask "gemini-pro") (lit "p1")
              (start [response 200 "OK" completion_text None])) = Ok result
       /\ length (candidates result) = 2
       /\ map cand_finishReason (candidates result)
          = [Some (lit "STOP"); Some (lit "LENGTH")].
Proof.
  split; [reflexivity|]. split; [reflexivity|].
  destruct (@generateContent_candidates platform generator (ask "gemini-pro")
              (lit "p1") (start [response 200 "OK" completion_text None])
              (response 200 "OK" completion_text None) [] completion
              eq_refl eq_refl eq_refl)
    as [result [Hr [Hl [Hc _]]]].
  exists result. split; [exact Hr|]. split; [exact Hl|].
  pose proof (Hc 0 _ eq_refl) as H0. pose proof (Hc 1 _ eq_refl) as H1.
  destruct (candidates result) as [|c0 [|c1 [|c2 cs]]]; try discriminate.
  injection H0 as H0. injection H1 as H1. subst c0 c1. reflexivity.
Defined.

Lemma chat_completions_http_error_witness :
  resp_ok (response 500 "Internal Server Error" "overloaded" None) = false
  /\ fst (@generateContent platform generator (ask "llama3") (lit "p1")
            (start [response 500 "Internal Server Error" "overloaded" None]))
     = Throw (Error (lit "Ollama API error: 500 - overloaded"))
  /\ fst (@generateContentStream platform generator (ask "llama3") (lit "p1")
            (start [response 500 "Internal Server Error" "overloaded" None]))
     = Throw (Error (lit "Ollama API error: 500 - overloaded")).
Proof.
  destruct (@chat_completions_http_error platform generator (ask "llama3")
              (lit "p1")
              (start [response 500 "Internal Server Error" "overloaded" None]))
    as [H1 [H2 _]].
  split; [reflexivity|]. split.
  - now rewrite (H1 _ _ eq_refl eq_refl).
  - now rewrite (H2 _ _ eq_refl eq_refl).
Defined.

Lemma chat_request_effective_model_witness :
  (exists rest, gen_model (ask "gemini-2.5-pro") = lit "gemini" ++ rest)
  /\ body_model (req_body (chat_request generator (ask "gemini-2.5-pro") true))
     = lit "llama3"
  /\ ~ (exists rest, gen_model (ask "mistral") = lit "gemini" ++ rest)
  /\ body_model (req_body (chat_request generator (ask "mistral") false))
     = lit "mistral".
Proof.
  assert (Hg : exists rest,
             gen_model (ask "gemini-2.5-pro") = lit "gemini" ++ rest).
  { exists (lit "-2.5-pro"). reflexivity. }
  assert (Hm : ~ (exists rest, gen_model (ask "mistral") = lit "gemini" ++ rest)).
  { intros [rest H]. discriminate H. }
  split; [exact Hg|]. split; [|split; [exact Hm|]].
  - destruct (@chat_request_effective_model platform generator
                (ask "gemini-2.5-pro") (lit "p1") (start []))
      as [_ [_ H]].
    exact (proj1 (H true) Hg).
  - destruct (@chat_request_effective_model platform generator
                (ask "mistral") (lit "p1") (start []))
      as [_ [_ H]].
    exact (proj2 (H false) Hm).
Defined.


Lemma embedContent_http_error_witness :
  resp_ok (response 500 "Internal Server Error" "overloaded" None) = false
  /\ @embedContent platform generator three_texts
       (start [response 200 "OK" "{'data':[{'embedding':[1,2]}]}" None;
               response 500 "Internal Server Error" "overloaded" None;
               response 200 "OK" "{}" None]) =
     (Throw (Error (lit "Ollama Embedding Error: Internal Server Error")),
      @Build_Net platform [response 200 "OK" "{}" None]
        (map (embedding_request generator (lit "nomic-embed-text"))
             [lit "a"; lit "b"])).
Proof.
  split; [reflexivity|].
  assert (Ha : Forall (@embedding_answer platform)
                 [response 200 "OK" "{'data':[{'embedding':[1,2]}]}" None]).
  { repeat constructor; eexists; reflexivity. }
  exact (@embedContent_http_error platform generator three_texts
           (start [response 200 "OK" "{'data':[{'embedding':[1,2]}]}" None;
                   response 500 "Internal Server Error" "overloaded" None;
                   response 200 "OK" "{}" None])
           [lit "a"] (lit "b") [lit "c"]
           [response 200 "OK" "{'data':[{'embedding':[1,2]}]}" None]
           [response 500 "Internal Server Error" "overloaded" None;
            response 200 "OK" "{}" None]
           (response 500 "Internal Server Error" "overloaded" None)
           [response 200 "OK" "{}" None]
           eq_refl eq_refl Ha eq_refl eq_refl).
Defined.

(** C6. [embedContent] at an embeddings answer of status 500, status text
    [Internal Server Error] and body [overloaded]: the error thrown is made
    of the status text alone. It is the same for another body, and answers
    without status text give the same error whatever their status code, so
    the error carries neither the status code nor the body, which the error
    of [generateContent] for the same answer does. The request for the third
    text is not sent. *)
Lemma embedContent_error_without_status_or_body :
  @embedContent platform generator three_texts
     (start (failing_script 500 "Internal Server Error" "overloaded"))
  = (Throw (Error (lit "Ollama Embedding Error: Internal Server Error")),
     @Build_Net platform
       [response 200 "OK" "{'data':[{'embedding':[3]},{'embedding':[4]}]}" None]
       (map (embedding_request generator (lit "nomic-embed-text"))
            [lit "a"; lit "b"]))
  /\
  fst (@embedContent platform generator three_texts
         (start (failing_script 500 "Internal Server Error" "out of memory")))
  = Throw (Error (lit "Ollama Embedding Error: Internal Server Error"))
  /\
  fst (@embedContent platform generator three_texts
         (start (failing_script 500 "" "overloaded")))
  = fst (@embedContent platform generator three_texts
           (start (failing_script 503 "" "overloaded")))
  /\
  fst (@embedContent platform generator three_texts
         (start (failing_script 500 "Internal Server Error" "overloaded")))
  <> Throw (api_error
              (response 500 "Internal Server Error" "overloaded" None))
  /\
  fst (@generateContent platform generator (ask "llama3") (lit "p1")
         (start [response 500 "Internal Server Error" "overloaded" None]))
  = Throw (api_error
             (response 500 "Internal Server Error" "overloaded" None)).
Proof.
  split; [reflexivity|]. split; [reflexivity|]. split; [reflexivity|].
  split; [discriminate | reflexivity].
Qed.

End Runs.

(* ================================================================= *)
(** ** Further facts about lines *)

Section LineFacts.

Lemma whitespace_rev (ws : jsstring) : whitespace ws -> whitespace (rev ws).
Proof. unfold whitespace. apply Forall_rev. Qed.

Lemma trimStart_whitespace (ws s : jsstring) :
  whitespace ws -> trimStart (ws ++ s) = trimStart s.
Proof.
  induction 1 as [|c ws Hc _ IH]; [reflexivity|].
  simpl. now rewrite Hc.
Qed.

Lemma trimStart_app_whitespace (s ws : jsstring) :
  whitespace ws ->
  trimStart (s ++ ws) =
  match trimStart s with
  | [] => []
  | c :: t => (c :: t) ++ ws
  end.
Proof.
  intro Hws. induction s as [|c s IH].
  - simpl. rewrite <- (app_nil_r ws). now apply trimStart_whitespace.
  - simpl. destruct (isWhiteSpace c); [exact IH | reflexivity].
Qed.

Lemma trimEnd_whitespace (s ws : jsstring) :
  whitespace ws -> trimEnd (s ++ ws) = trimEnd s.
Proof.
  intro Hws. unfold trimEnd. rewrite rev_app_distr.
  now rewrite (trimStart_whitespace _ (whitespace_rev Hws)).
Qed.

Lemma trim_whitespace (before line after : jsstring) :
  whitespace before -> whitespace after ->
  trim (before ++ line ++ after) = trim line.
Proof.
  intros Hb Ha. unfold trim.
  rewrite (trimStart_whitespace _ Hb), (trimStart_app_whitespace _ Ha).
  destruct (trimStart line) as [|c t]; [reflexivity|].
  now apply trimEnd_whitespace.
Qed.

End LineFacts.

Section StreamMoreFacts.

Context `{P : Platform}.

(** A frame yields only chunks of one candidate with a non-empty text and,
    when it has one, a non-empty finish reason. *)
Lemma stream_frame_chunk (data : OpenAIStreamChunk)
    (chunk : GenerateContentResponse) :
  stream_frame data = Ok (Some chunk) ->
  exists (choice0 : StreamChoice) (others : list StreamChoice)
         (c : codeunit) (content : jsstring) (reason : option jsstring),
    chunk_choices data = Some (choice0 :: others) /\
    delta_content (stream_delta choice0) = Some (c :: content) /\
    chunk = text_chunk (c :: content) reason /\ reason <> Some [].
Proof.
  unfold stream_frame.
  destruct (chunk_choices data) as [[|choice0 others]|]; simpl;
    try discriminate.
  destruct (delta_content (stream_delta choice0)) as [[|c content]|] eqn:Ed;
    simpl; try discriminate.
  intro H. injection H as <-.
  exists choice0, others, c, content. eexists.
  split; [reflexivity|]. split; [exact Ed|]. split; [reflexivity|].
  destruct (stream_finish_reason choice0) as [reason|]; [|discriminate].
  destruct (toUpperCase reason); simpl; discriminate.
Qed.

Lemma stream_frame_yields (data : OpenAIStreamChunk)
    (choice0 : StreamChoice) (others : list StreamChoice)
    (c : codeunit) (content : jsstring) :
  chunk_choices data = Some (choice0 :: others) ->
  delta_content (stream_delta choice0) = Some (c :: content) ->
  exists chunk, stream_frame data = Ok (Some chunk).
Proof.
  intros Hc Hd. unfold stream_frame. rewrite Hc. simpl. rewrite Hd. simpl.
  eexists. reflexivity.
Qed.

(** A line yields nothing, or the one chunk of the frame it holds. *)
Lemma stream_line_cases (line : jsstring) :
  stream_line line = [] \/
  exists (rest : jsstring) (data : OpenAIStreamChunk)
         (chunk : GenerateContentResponse),
    trim line = lit "data: " ++ rest /\ rest <> lit "[DONE]" /\
    parseStreamChunk rest = Some data /\
    stream_frame data = Ok (Some chunk) /\
    stream_line line = [chunk].
Proof.
  unfold stream_line.
  destruct (truthy (trim line)); cbn [negb orb]; [|now left].
  destruct (eqb (trim line) (lit "data: [DONE]")) eqn:Ed; [now left|].
  destruct (startsWith (lit "data: ") (trim line)) eqn:Es; [|now left].
  apply startsWith_prefix in Es. destruct Es as [rest Hr].
  rewrite Hr. change 6 with (length (lit "data: ")). rewrite slice_app.
  destruct (parseStreamChunk rest) as [data|] eqn:Ep; [|now left].
  destruct (stream_frame data) as [[chunk|]|e] eqn:Ef; try now left.
  right. exists rest, data, chunk. repeat split; try assumption.
  intro E. apply eqb_neq in Ed. apply Ed. now rewrite Hr, E.
Qed.

Lemma stream_line_length (line : jsstring) : length (stream_line line) <= 1.
Proof.
  destruct (stream_line_cases line) as [H|[rest [data [chunk [_ [_ [_ [_ H]]]]]]]];
    rewrite H; simpl; lia.
Qed.

Lemma flat_map_stream_line_length (lines : list jsstring) :
  length (flat_map stream_line lines) <= length lines.
Proof.
  induction lines as [|line lines IH]; simpl; [lia|].
  rewrite length_app. pose proof (stream_line_length line). lia.
Qed.

Lemma stream_loop_app (reads1 reads2 : list (list Byte.byte)) :
  forall st : StreamState,
    stream_loop st (reads1 ++ reads2) =
    stream_loop st reads1 ++ stream_loop (stream_state st reads1) reads2.
Proof.
  induction reads1 as [|value reads1 IH]; intro st; [reflexivity|].
  simpl. destruct (stream_read st value) as [lines st'] eqn:E.
  rewrite IH, app_assoc. reflexivity.
Qed.

End StreamMoreFacts.

(* ================================================================= *)
(** ** Further properties of the streaming decoder *)

Section StreamMoreClaims.

Context `{P : Platform}.

(** X1. Which lines yield. A line yields a chunk exactly when, trimmed, it
    is [data: ] followed by a text other than [[DONE]] that parses as a
    frame whose first choice has a non-empty delta text. Every other line
    (a comment, another field, [data:] without the space) is passed over. *)
Theorem stream_line_yields_iff (line : jsstring) :
  stream_line line <> [] <->
  exists (rest : jsstring) (data : OpenAIStreamChunk)
         (choice0 : StreamChoice) (others : list StreamChoice)
         (c : codeunit) (content : jsstring),
    trim line = lit "data: " ++ rest /\ rest <> lit "[DONE]" /\
    parseStreamChunk rest = Some data /\
    chunk_choices data = Some (choice0 :: others) /\
    delta_content (stream_delta choice0) = Some (c :: content).
Proof.
  split.
  - intro H.
    destruct (stream_line_cases line)
      as [E|[rest [data [chunk [Ht [Hr [Hp [Hf _]]]]]]]]; [contradiction|].
    destruct (stream_frame_chunk _ Hf)
      as [choice0 [others [c [content [reason [Hc [Hd _]]]]]]].
    exists rest, data, choice0, others, c, content. auto.
  - intros [rest [data [choice0 [others [c [content [Ht [Hr [Hp [Hc Hd]]]]]]]]]].
    rewrite (stream_line_data _ Ht Hr), Hp.
    destruct (stream_frame_yields _ Hc Hd) as [chunk ->]. discriminate.
Qed.

(** X2. White space around a line does not count: a line yields the same
    with any white space before and after it, so the carriage return of a
    CRLF line ending, or indentation, changes nothing. *)
Theorem stream_line_whitespace (before line after : jsstring) :
  whitespace before -> whitespace after ->
  stream_line (before ++ line ++ after) = stream_line line.
Proof.
  intros Hb Ha. unfold stream_line. now rewrite (trim_whitespace _ Hb Ha).
Qed.

(** X3. Whatever the body and the state the loop starts from, every chunk
    the generator yields has exactly one candidate, of role [model] and
    index 0, with one text part that is not empty, no usage metadata, and a
    finish reason that is absent or not empty. *)
Theorem stream_loop_chunks (reads : list (list Byte.byte)) (st : StreamState) :
  Forall (fun chunk =>
            exists (c : codeunit) (content : jsstring)
                   (reason : option jsstring),
              chunk = text_chunk (c :: content) reason /\ reason <> Some [])
         (stream_loop st reads).
Proof.
  revert st. induction reads as [|value reads IH]; intro st; [constructor|].
  simpl. destruct (stream_read st value) as [lines st'].
  apply Forall_app. split; [|apply IH].
  clear. induction lines as [|line lines IH]; [constructor|].
  simpl. apply Forall_app. split; [|exact IH].
  destruct (stream_line_cases line)
    as [E|[rest [data [chunk [_ [_ [_ [Hf E]]]]]]]]; rewrite E; [constructor|].
  constructor; [|constructor].
  destruct (stream_frame_chunk _ Hf)
    as [choice0 [others [c [content [reason [_ [_ [Hc Hr]]]]]]]].
  exists c, content, reason. auto.
Qed.

(** X4. The generator yields at most one chunk per complete line of the
    body. *)
Theorem stream_loop_at_most_one_per_line (reads : list (list Byte.byte)) :
  length (stream_loop stream_init reads) <= length (body_lines (concat reads)).
Proof. rewrite stream_loop_lines. apply flat_map_stream_line_length. Qed.

(** X5. What has been yielded stays: the chunks yielded for some reads
    followed by more reads begin with the chunks yielded for the first
    reads, and go on with what the loop yields from the state those left. *)
Theorem stream_loop_incremental (reads1 reads2 : list (list Byte.byte)) :
  stream_loop stream_init (reads1 ++ reads2) =
  stream_loop stream_init reads1
  ++ stream_loop (stream_state stream_init reads1) reads2
  /\
  firstn (length (stream_loop stream_init reads1))
         (stream_loop stream_init (reads1 ++ reads2)) =
  stream_loop stream_init reads1.
Proof.
  rewrite stream_loop_app. split; [reflexivity|].
  rewrite firstn_app, Nat.sub_diag, firstn_all. simpl. apply app_nil_r.
Qed.

End StreamMoreClaims.

(* ================================================================= *)
(** ** Line feeds and lines *)

Section DecoderFacts.

Lemma utf16_newlines (cp : N) :
  count_occ N.eq_dec (TextDecoder.utf16 cp) newline =
  count_occ N.eq_dec [cp] newline.
Proof.
  unfold TextDecoder.utf16, newline.
  destruct (cp <? 65536)%N eqn:E; [reflexivity|].
  apply N.ltb_ge in E. cbn [count_occ].
  destruct (N.eq_dec (55296 + N.shiftr (cp - 65536) 10) 10) as [H|_]; [lia|].
  destruct (N.eq_dec (56320 + N.land (cp - 65536) 1023) 10) as [H|_]; [lia|].
  destruct (N.eq_dec cp 10) as [H|_]; [lia | reflexivity].
Qed.

Lemma serialize_newlines (cps : list N) :
  forall seen : bool,
    count_occ N.eq_dec (snd (TextDecoder.serialize seen cps)) newline =
    count_occ N.eq_dec cps newline.
Proof.
  induction cps as [|cp cps IH]; intro seen; [reflexivity|].
  cbn [TextDecoder.serialize]. specialize (IH true).
  destruct (TextDecoder.serialize true cps) as [seen' out]. cbn [snd] in IH.
  destruct (negb seen && (cp =? 65279)%N) eqn:E.
  - apply andb_prop in E. destruct E as [_ E]. apply N.eqb_eq in E. subst cp.
    cbn [snd]. etransitivity; [exact IH | reflexivity].
  - cbn [snd]. change (cp :: cps) with ([cp] ++ cps).
    rewrite !count_occ_app, utf16_newlines. f_equal. exact IH.
Qed.

Lemma line_feed_byte (b : Byte.byte) :
  Byte.to_N b = 10%N <-> b = Byte.x0a.
Proof.
  split; [|now intros ->].
  intro H. apply Byte.to_of_N_iff in H. simpl in H. congruence.
Qed.

Lemma continuation_bits (b : Byte.byte) :
  (144 <= Byte.to_N b <= 191)%N -> N.land (Byte.to_N b) 63 <> 0%N.
Proof. destruct b; cbn; lia. Qed.

Lemma decoder_ok_reset (st : TextDecoder.state) :
  decoder_ok (TextDecoder.reset st).
Proof. unfold decoder_ok. simpl. lia. Qed.

Lemma lead_ok (st : TextDecoder.state) (b : Byte.byte) :
  decoder_ok st ->
  decoder_ok (fst (TextDecoder.lead st (Byte.to_N b))) /\
  count_occ N.eq_dec (snd (TextDecoder.lead st (Byte.to_N b))) newline =
  count_occ Byte.byte_eq_dec [b] Byte.x0a.
Proof.
  intro H.
  destruct b; (split; [first [exact H | unfold decoder_ok; cbn; lia]
                      | reflexivity]).
Qed.

Lemma continued_code_point (cp y : N) :
  cp <> 0%N -> N.lor (N.shiftl cp 6) y <> 0%N /\
               N.lor (N.shiftl cp 6) y <> 10%N.
Proof.
  intro H. split; intro E.
  - apply N.lor_eq_0_l, N.shiftl_eq_0_iff in E. contradiction.
  - apply (f_equal (fun x => N.shiftr x 6)) in E.
    rewrite N.shiftr_lor, N.shiftr_shiftl_l in E by lia.
    change (N.shiftr 10 6) with 0%N in E. rewrite N.sub_diag in E.
    apply N.lor_eq_0_l in E. rewrite N.shiftl_0_r in E. contradiction.
Qed.

Lemma handler_ok (st : TextDecoder.state) (b : Byte.byte) :
  decoder_ok st ->
  decoder_ok (fst (TextDecoder.handler st (Byte.to_N b))) /\
  count_occ N.eq_dec (snd (TextDecoder.handler st (Byte.to_N b))) newline =
  count_occ Byte.byte_eq_dec [b] Byte.x0a.
Proof.
  intro H. unfold TextDecoder.handler.
  destruct (TextDecoder.bytes_needed st =? 0)%N eqn:En;
    [now apply lead_ok|].
  apply N.eqb_neq in En.
  destruct (negb ((TextDecoder.lower_boundary st <=? Byte.to_N b)
                  && (Byte.to_N b <=? TextDecoder.upper_boundary st))%N)
    eqn:Er.
  - destruct (lead_ok b (decoder_ok_reset st)) as [H1 H2].
    destruct (TextDecoder.lead (TextDecoder.reset st) (Byte.to_N b))
      as [st' out]. simpl in *. split; [exact H1|].
    destruct (N.eq_dec TextDecoder.replacement newline) as [E|_];
      [discriminate E | exact H2].
  - apply negb_false_iff, andb_prop in Er. destruct Er as [Hl Hu].
    apply N.leb_le in Hl, Hu.
    destruct H as [Hlow [Hup Hcp]].
    assert (Hb : b <> Byte.x0a).
    { intros ->. simpl in Hl. lia. }
    assert (Hn : count_occ Byte.byte_eq_dec [b] Byte.x0a = 0).
    { simpl. destruct (Byte.byte_eq_dec b Byte.x0a); congruence. }
    rewrite Hn.
    set (cp := N.lor (N.shiftl (TextDecoder.code_point st) 6)
                     (N.land (Byte.to_N b) 63)).
    assert (Hcp0 : cp <> 0%N).
    { destruct (N.eq_dec (TextDecoder.code_point st) 0) as [E|E].
      - unfold cp. rewrite E, N.shiftl_0_l, N.lor_0_l.
        apply continuation_bits. destruct Hcp as [?|[?|[? _]]]; try easy. lia.
      - now apply continued_code_point. }
    destruct (TextDecoder.bytes_seen st + 1 =? TextDecoder.bytes_needed st)%N
      eqn:Es.
    + apply N.eqb_eq in Es. split; [apply decoder_ok_reset|].
      assert (Hcp10 : cp <> 10%N).
      { apply continued_code_point.
        destruct Hcp as [?|[?|[_ ?]]]; try easy. lia. }
      simpl. destruct (N.eq_dec cp newline); [contradiction | reflexivity].
    + split; [|reflexivity]. unfold decoder_ok. simpl. fold cp.
      split; [lia|]. split; [lia|]. auto.
Qed.

Lemma step_ok (st : TextDecoder.state) (b : Byte.byte) :
  decoder_ok st ->
  decoder_ok (fst (TextDecoder.step st b)) /\
  count_occ N.eq_dec (snd (TextDecoder.step st b)) newline =
  count_occ Byte.byte_eq_dec [b] Byte.x0a.
Proof.
  intro H. unfold TextDecoder.step.
  destruct (handler_ok b H) as [H1 H2].
  destruct (TextDecoder.handler st (Byte.to_N b)) as [st' cps].
  pose proof (serialize_newlines cps (TextDecoder.bom_seen st')) as Hs.
  destruct (TextDecoder.serialize (TextDecoder.bom_seen st') cps)
    as [seen out].
  simpl in *. split; [exact H1 | congruence].
Qed.

(** The decoder writes a line break for each line feed it reads, and for
    nothing else. *)
Lemma decode_ok (value : list Byte.byte) :
  forall st : TextDecoder.state,
    decoder_ok st ->
    decoder_ok (fst (TextDecoder.decode st value)) /\
    count_occ N.eq_dec (snd (TextDecoder.decode st value)) newline =
    line_feeds value.
Proof.
  induction value as [|b value IH]; intros st H; [now split|].
  cbn [TextDecoder.decode].
  destruct (step_ok b H) as [H1 H2].
  destruct (TextDecoder.step st b) as [st1 out1]. cbn [fst snd] in H1, H2.
  destruct (IH st1 H1) as [H3 H4].
  destruct (TextDecoder.decode st1 value) as [st2 out2]. cbn [fst snd] in *.
  split; [exact H3|].
  change (line_feeds (b :: value))
    with (count_occ Byte.byte_eq_dec ([b] ++ value) Byte.x0a).
  rewrite !count_occ_app. f_equal; [exact H2 | exact H4].
Qed.

Lemma decoder_ok_init : decoder_ok TextDecoder.init.
Proof. unfold decoder_ok. simpl. lia. Qed.

Lemma cut_count (sep : codeunit) (s : jsstring) :
  length (fst (cut sep s)) = count_occ N.eq_dec s sep.
Proof.
  induction s as [|c s IH]; [reflexivity|].
  simpl. destruct (cut sep s) as [lines rest]. simpl in IH.
  destruct (N.eq_dec c sep) as [E|E].
  - apply N.eqb_eq in E. rewrite E. simpl. now rewrite IH.
  - apply N.eqb_neq in E. rewrite E. rewrite <- IH. now destruct lines.
Qed.

Lemma cut_no_line (sep : codeunit) (s : jsstring) :
  count_occ N.eq_dec s sep = 0 -> fst (cut sep s) = [].
Proof.
  intro H. rewrite <- cut_count in H. now apply length_zero_iff_nil.
Qed.

End DecoderFacts.

Section LineFeedClaims.

Context `{P : Platform}.

(** X6. The body has as many candidate lines as it has line-feed bytes:
    the decoder writes a line break for a byte 0x0A and for no other byte,
    whatever else the body holds (text of several bytes, bytes that are not
    UTF-8, a byte order mark). With X4, the generator yields no more chunks
    than the body has line feeds. *)
Theorem body_lines_line_feeds (body : list Byte.byte) :
  length (body_lines body) = line_feeds body.
Proof.
  unfold body_lines. rewrite cut_count.
  apply (decode_ok body decoder_ok_init).
Qed.

(** X7. What follows the last line feed is never read as a line: more
    bytes without a line feed at the end of the body, a frame with no line
    break after it included, yield nothing more. *)
Theorem stream_loop_unfinished_line (reads : list (list Byte.byte))
    (tail : list Byte.byte) :
  line_feeds tail = 0 ->
  stream_loop stream_init (reads ++ [tail]) = stream_loop stream_init reads.
Proof.
  intro Ht. rewrite !stream_loop_lines. f_equal.
  rewrite concat_app. simpl. rewrite app_nil_r.
  unfold body_lines. rewrite decode_app. cbn [snd].
  destruct (decode_ok (concat reads) decoder_ok_init) as [Hok _].
  destruct (decode_ok tail Hok) as [_ Hn]. rewrite Ht in Hn.
  rewrite cut_app. cbn [fst].
  rewrite <- app_nil_r. f_equal.
  apply cut_no_line. rewrite count_occ_app.
  apply Nat.eq_add_0. split; [|exact Hn].
  etransitivity; [symmetry; apply cut_count|]. now rewrite cut_rest.
Qed.

End LineFeedClaims.

(* ================================================================= *)
(** ** Further properties of the methods *)

Section MethodMoreFacts.

Context `{P : Platform}.

Lemma toOpenAIMessages_contents (contents : list Content) :
  map msg_content (toOpenAIMessages contents) = map flattened_text contents.
Proof.
  unfold toOpenAIMessages. rewrite map_map. apply map_ext. intro content.
  cbn [msg_content]. rewrite join_empty. unfold flattened_text, or_array.
  f_equal. apply map_ext. exact part_text_carried.
Qed.

Lemma text_fragments_flattened (contents : list Content) :
  concat (text_fragments contents) = concat (map flattened_text contents).
Proof.
  induction contents as [|content contents IH]; [reflexivity|].
  unfold text_fragments in *. cbn [flat_map map concat].
  rewrite concat_app, IH. f_equal. unfold flattened_text.
  induction (match content_parts content with
             | Some ps => ps
             | None => []
             end) as [|part parts IHp]; [reflexivity|].
  cbn [flat_map map concat]. rewrite concat_app, IHp.
  destruct (carried_text part); simpl; now rewrite ?app_nil_r.
Qed.

Lemma toOpenAIRole_range (role : jsstring) :
  toOpenAIRole role = lit "user" \/ toOpenAIRole role = lit "assistant" \/
  toOpenAIRole role = lit "system".
Proof.
  unfold toOpenAIRole.
  destruct (eqb role (lit "user")); [now left|].
  destruct (eqb role (lit "model")); auto.
Qed.

(** The loop over the texts when an answer cannot be parsed. *)
Lemma embed_loop_unreadable (this : OllamaContentGenerator) (model : jsstring)
    (texts1 : list jsstring) (input : jsstring) (texts2 : list jsstring) :
  forall (acc : list ContentEmbedding) (n : Net)
         (responses : list Response) (w : World)
         (response : Response) (w' : World),
    serve (map (embedding_request this model) texts1) (net_world n)
      = (responses, w) ->
    Forall embedding_answer responses ->
    fetch (embedding_request this model input) w = (response, w') ->
    resp_ok response = true ->
    parseEmbeddingList (resp_text response) = None ->
    embed_loop this model (texts1 ++ input :: texts2) acc n =
    (Throw SyntaxError,
     {| net_world := w';
        net_log := net_log n
                   ++ map (embedding_request this model) texts1
                   ++ [embedding_request this model input] |}).
Proof.
  induction texts1 as [|t texts1 IH];
    intros acc n responses w response w' Hs Ha Hf Hok Hp.
  - simpl in Hs. injection Hs as <- <-. simpl.
    unfold bind at 1, await_fetch.
    fold (embedding_request this model input). rewrite Hf, Hok. simpl.
    unfold bind, response_json. now rewrite Hp.
  - simpl in Hs.
    destruct (fetch (embedding_request this model t) (net_world n))
      as [r w1] eqn:Hf1.
    destruct (serve (map (embedding_request this model) texts1) w1)
      as [rs w2] eqn:Hs'.
    injection Hs as <- <-.
    inversion Ha as [|r' rs' [Hok1 [data Hp1]] Hrs]; subst.
    simpl. unfold bind at 1, await_fetch.
    fold (embedding_request this model t). rewrite Hf1, Hok1. simpl.
    unfold bind, response_json. rewrite Hp1. unfold ret.
    rewrite embed_push_ok.
    rewrite (IH _ {| net_world := w1;
                     net_log := net_log n
                                ++ [embedding_request this model t] |}
                rs w2 response w' Hs' Hrs Hf Hok Hp).
    simpl. now rewrite <- !app_assoc.
Qed.

Lemma embedding_vector_answer (responses : list Response)
    (vectors : list ContentEmbedding) :
  Forall2 embedding_vector responses vectors ->
  Forall embedding_answer responses /\
  flat_map first_embedding responses = vectors.
Proof.
  induction 1 as [|r e rs es [Hok [item [items [Hp He]]]] _ [IH1 IH2]].
  - split; [constructor | reflexivity].
  - split.
    + constructor; [|exact IH1]. split; [exact Hok|]. eauto.
    + simpl. unfold first_embedding at 1. rewrite Hp, IH2, He. reflexivity.
Qed.

End MethodMoreFacts.

Section MethodMoreClaims.

Context `{P : Platform}.

(** X8. When the backend answers the streaming request with a success that
    has no body, [generateContentStream] throws the error
    [No response body from Ollama]: no generator is returned. The request
    has been sent. *)
Theorem generateContentStream_no_body (this : OllamaContentGenerator)
    (request : GenerateContentParameters) (id : jsstring) (n : Net)
    (response : Response) (w : World) :
  fetch (chat_request this request true) (net_world n) = (response, w) ->
  resp_ok response = true ->
  resp_body response = None ->
  generateContentStream this request id n =
  (Throw (Error (lit "No response body from Ollama")),
   {| net_world := w;
      net_log := net_log n ++ [chat_request this request true] |}).
Proof.
  intros Hf Hok Hb. rewrite generateContentStream_run. simpl.
  rewrite Hf. simpl. now rewrite Hok, Hb.
Qed.

(** X9. When the backend answers the streaming request with a success that
    has a body, [generateContentStream] returns the generator that yields,
    in order, what each complete line of the whole body yields: the result
    depends on the bytes of the body and not on the reads they come in. *)
Theorem generateContentStream_body (this : OllamaContentGenerator)
    (request : GenerateContentParameters) (id : jsstring) (n : Net)
    (response : Response) (w : World) (reads : list (list Byte.byte)) :
  fetch (chat_request this request true) (net_world n) = (response, w) ->
  resp_ok response = true ->
  resp_body response = Some reads ->
  generateContentStream this request id n =
  (Ok (flat_map stream_line (body_lines (concat reads))),
   {| net_world := w;
      net_log := net_log n ++ [chat_request this request true] |}).
Proof.
  intros Hf Hok Hb. rewrite generateContentStream_run. simpl.
  rewrite Hf. simpl. now rewrite Hok, Hb, stream_loop_lines.
Qed.

(** X10. When the backend answers the completion request with a success
    whose body does not parse, [generateContent] throws the parser's error:
    a body that cannot be read fails the whole call, where the streaming
    decoder passes over a line that cannot be read. *)
Theorem generateContent_unreadable_body (this : OllamaContentGenerator)
    (request : GenerateContentParameters) (id : jsstring) (n : Net)
    (response : Response) (w : World) :
  fetch (chat_request this request false) (net_world n) = (response, w) ->
  resp_ok response = true ->
  parseCompletion (resp_text response) = None ->
  generateContent this request id n =
  (Throw SyntaxError,
   {| net_world := w;
      net_log := net_log n ++ [chat_request this request false] |}).
Proof.
  intros Hf Hok Hp. rewrite generateContent_run. simpl.
  rewrite Hf. simpl. now rewrite Hok, Hp.
Qed.

(** X11. When the answer for one of the texts is a success whose body does
    not parse, the answers before it having been read, [embedContent]
    throws the parser's error: the embeddings collected so far are not
    returned and no request is sent for the texts after it. *)
Theorem embedContent_unreadable_body (this : OllamaContentGenerator)
    (request : EmbedContentParameters) (n : Net)
    (texts1 : list jsstring) (input : jsstring) (texts2 : list jsstring)
    (responses : list Response) (w : World)
    (response : Response) (w' : World) :
  let model := if startsWith (lit "gemini") (embed_model request)
               then model this else embed_model request in
  text_fragments (normalizeContents (embed_contents request))
    = texts1 ++ input :: texts2 ->
  serve (map (embedding_request this model) texts1) (net_world n)
    = (responses, w) ->
  Forall embedding_answer responses ->
  fetch (embedding_request this model input) w = (response, w') ->
  resp_ok response = true ->
  parseEmbeddingList (resp_text response) = None ->
  embedContent this request n =
  (Throw SyntaxError,
   {| net_world := w';
      net_log := net_log n
                 ++ map (embedding_request this model) texts1
                 ++ [embedding_request this model input] |}).
Proof.
  intros model Ht Hs Ha Hf Hok Hp.
  unfold embedContent, bind. rewrite embed_texts_fragments, Ht.
  fold model.
  now rewrite (embed_loop_unreadable this model texts1 input texts2 [] n
                 Hs Ha Hf Hok Hp).
Qed.

(** X12. When no part of the request carries text (no turn, turns without
    parts, parts that are not text or whose text is empty, an empty
    string), [embedContent] sends no request and returns no embedding. *)
Theorem embedContent_no_text (this : OllamaContentGenerator)
    (request : EmbedContentParameters) (n : Net) :
  text_fragments (normalizeContents (embed_contents request)) = [] ->
  embedContent this request n = (Ok {| embeddings := [] |}, n).
Proof.
  intro Ht. unfold embedContent, bind.
  now rewrite embed_texts_fragments, Ht.
Qed.

(** X13. When every answer is a success that holds a vector, [embedContent]
    returns exactly one embedding per text: embedding [i] is the first
    vector of the answer to the request for text [i]. *)
Theorem embedContent_one_per_text (this : OllamaContentGenerator)
    (request : EmbedContentParameters) (n : Net)
    (responses : list Response) (w : World)
    (vectors : list ContentEmbedding) :
  let texts := text_fragments (normalizeContents (embed_contents request)) in
  let model := if startsWith (lit "gemini") (embed_model request)
               then model this else embed_model request in
  serve (map (embedding_request this model) texts) (net_world n)
    = (responses, w) ->
  Forall2 embedding_vector responses vectors ->
  fst (embedContent this request n) = Ok {| embeddings := vectors |} /\
  length vectors = length texts.
Proof.
  intros texts model Hs Hv.
  destruct (embedding_vector_answer Hv) as [Ha Hf].
  split.
  - unfold embedContent, bind. rewrite embed_texts_fragments.
    fold texts. fold model.
    rewrite (embed_loop_ok this model texts [] n Hs Ha). simpl.
    now rewrite Hf.
  - rewrite <- (Forall2_length Hv).
    pose proof (serve_length (map (embedding_request this model) texts)
                  (net_world n)) as H.
    rewrite Hs in H. simpl in H. now rewrite length_map in H.
Qed.

(** X14. A request whose contents is a bare string is sent as one message,
    of role [user], whose content is that string, the empty string
    included: [generateContent] and [generateContentStream] send it as they
    send the one-turn conversation of a user who says that string. *)
Theorem string_contents_one_user_message (this : OllamaContentGenerator)
    (name text : jsstring) (stream : bool) :
  toOpenAIMessages (normalizeContents (ContentString text)) =
    [{| msg_role := lit "user"; msg_content := text |}]
  /\
  req_body (chat_request this
              {| gen_model := name; gen_contents := ContentString text |}
              stream) =
  ChatBody (if startsWith (lit "gemini") name then model this else name)
           [{| msg_role := lit "user"; msg_content := text |}] stream.
Proof.
  assert (H : toOpenAIMessages (normalizeContents (ContentString text)) =
              [{| msg_role := lit "user"; msg_content := text |}]).
  { unfold normalizeContents, toOpenAIMessages.
    cbn [map content_parts content_role part_text or_array or_else truthy].
    destruct text; reflexivity. }
  split; [exact H|].
  unfold chat_request. cbn [req_body gen_model gen_contents]. now rewrite H.
Qed.

(** X15. Whatever the roles of the turns, every message sent to the backend
    has one of the three roles [user], [assistant] and [system]. *)
Theorem toOpenAIMessages_roles (contents : list Content) :
  Forall (fun message =>
            msg_role message = lit "user" \/
            msg_role message = lit "assistant" \/
            msg_role message = lit "system")
         (toOpenAIMessages contents).
Proof.
  unfold toOpenAIMessages. apply Forall_map, Forall_forall.
  intros content _. cbn [msg_role]. apply toOpenAIRole_range.
Qed.

(** X16. The two readings of a request agree on its text: the texts
    [embedContent] extracts, put end to end, are the contents of the
    messages [generateContent] sends for the same turns, put end to end. *)
Theorem embed_texts_message_contents (contents : list Content) :
  concat (embed_texts contents) =
  concat (map msg_content (toOpenAIMessages contents)).
Proof.
  rewrite embed_texts_fragments, toOpenAIMessages_contents.
  apply text_fragments_flattened.
Qed.

End MethodMoreClaims.

(* ================================================================= *)
(** ** Properties of the model dialog *)

Module ModelDialogFacts.

Import ModelDialog.

Section Facts.

Context `{C : Core}.

Lemma findIndex_Some {A} (p : A -> bool) (xs : list A) :
  forall i : nat,
    findIndex p xs = Some i ->
    exists x : A, nth_error xs i = Some x /\ p x = true.
Proof.
  induction xs as [|x xs IH]; intros i H; [discriminate|].
  simpl in H. destruct (p x) eqn:E.
  - injection H as <-. now exists x.
  - destruct (findIndex p xs) as [j|]; [|discriminate].
    injection H as <-. exact (IH j eq_refl).
Qed.

Lemma findIndex_None {A} (p : A -> bool) (xs : list A) :
  findIndex p xs = None <-> forall x : A, In x xs -> p x = false.
Proof.
  induction xs as [|x xs IH]; simpl.
  - split; [intros _ y [] | reflexivity].
  - destruct (p x) eqn:E.
    + split; [discriminate|]. intro H. rewrite (H x) in E by now left.
      discriminate.
    + destruct (findIndex p xs) as [j|].
      * split; [discriminate|]. intro H.
        assert (E' : Some j = None).
        { apply IH. intros y Hy. apply H. now right. }
        discriminate E'.
      * split; [|reflexivity]. intros _ y [<-|Hy]; [exact E|].
        now apply (proj1 IH).
Qed.

Lemma mainOptions_length (d : Dialog) : 0 < length (mainOptions d).
Proof.
  unfold mainOptions. destruct (isOllama d).
  - destruct (ollamaModels d) as [|model models]; simpl; lia.
  - destruct (shouldShowPreviewModels d); simpl; lia.
Qed.

Lemma manualOptions_length (d : Dialog) :
  isOllama d = false -> 0 < length (manualOptions d).
Proof.
  intro H. unfold manualOptions. rewrite H.
  destruct (shouldShowPreviewModels d); simpl; lia.
Qed.

Lemma options_length (d : Dialog) :
  view d = main \/ isOllama d = false -> 0 < length (options d).
Proof.
  unfold options. intros [H|H].
  - rewrite H. apply mainOptions_length.
  - destruct (view d); [apply mainOptions_length|].
    now apply manualOptions_length.
Qed.

Lemma mainOptions_Manual (d : Dialog) :
  isOllama d = false ->
  exists i : nat,
    findIndex (fun o => eqb (value o) (lit "Manual")) (mainOptions d)
    = Some i.
Proof.
  intro H.
  destruct (findIndex (fun o => eqb (value o) (lit "Manual")) (mainOptions d))
    as [i|] eqn:E; [now exists i|].
  exfalso.
  assert (Hin : exists o, In o (mainOptions d) /\ value o = lit "Manual").
  { unfold mainOptions. rewrite H.
    destruct (shouldShowPreviewModels d); eexists; split;
      try reflexivity; simpl; auto. }
  destruct Hin as [o [Ho Hv]].
  pose proof (proj1 (findIndex_None _ _) E o Ho) as Hf.
  cbn beta in Hf. rewrite Hv in Hf. apply eqb_neq in Hf. now apply Hf.
Qed.

End Facts.

Section Claims.

Context `{C : Core}.

(** X17. The item the dialog selects first exists: in the main view, and in
    the manual view outside Ollama mode, the initial index is below the
    number of items listed. *)
Theorem initialIndex_in_bounds (d : Dialog) :
  view d = main \/ isOllama d = false ->
  initialIndex d < length (options d).
Proof.
  intro H. pose proof (options_length d H) as Hl.
  unfold initialIndex.
  destruct (findIndex (fun option => eqb (value option) (preferredModel d))
                      (options d)) as [idx|] eqn:E.
  - destruct (findIndex_Some _ _ E) as [x [Hx _]].
    apply nth_error_Some. congruence.
  - destruct (view d); [|exact Hl].
    destruct (findIndex (fun o => eqb (value o) (lit "Manual")) (options d))
      as [manualIdx|] eqn:Em; [|exact Hl].
    destruct (findIndex_Some _ _ Em) as [x [Hx _]].
    apply nth_error_Some. congruence.
Qed.

(** X18. What is selected first. When an item of the list has the preferred
    model as its value, the item selected first has that value. When none
    has, in the main view outside Ollama mode, the item selected first is
    the one of value [Manual]. *)
Theorem initialIndex_selects (d : Dialog) (item : Item) :
  nth_error (options d) (initialIndex d) = Some item ->
  ((exists o : Item, In o (options d) /\ value o = preferredModel d) ->
   value item = preferredModel d)
  /\
  ((forall o : Item, In o (options d) -> value o <> preferredModel d) ->
   view d = main -> isOllama d = false ->
   value item = lit "Manual").
Proof.
  intro Hi. unfold initialIndex in Hi. split.
  - intros [o [Ho Hv]].
    destruct (findIndex (fun option => eqb (value option) (preferredModel d))
                        (options d)) as [idx|] eqn:E.
    + destruct (findIndex_Some _ _ E) as [x [Hx Hp]].
      rewrite Hx in Hi. injection Hi as <-. now apply eqb_eq.
    + pose proof (proj1 (findIndex_None _ _) E o Ho) as Hf.
      cbn beta in Hf. rewrite Hv, (proj2 (eqb_eq _ _) eq_refl) in Hf.
      discriminate.
  - intros Hn Hv Ho.
    assert (E : findIndex
                  (fun option => eqb (value option) (preferredModel d))
                  (options d) = None).
    { apply findIndex_None. intros o Hin. apply eqb_neq. now apply Hn. }
    rewrite E, Hv in Hi.
    assert (Hopt : options d = mainOptions d).
    { unfold options. now rewrite Hv. }
    rewrite Hopt in Hi.
    destruct (mainOptions_Manual d Ho) as [i Em]. rewrite Em in Hi.
    destruct (findIndex_Some _ _ Em) as [x [Hx Hp]].
    rewrite Hx in Hi. injection Hi as <-. now apply eqb_eq.
Qed.

(** X19. Choosing [Manual] and pressing Escape leads back: from the main
    view, the two together leave the dialog as it was, open, with the model
    and the log untouched. *)
Theorem manual_then_escape (d : Dialog) :
  view d = main ->
  onKeypress (lit "escape") (handleSelect (lit "Manual") d) = d.
Proof.
  intro H. destruct d as [c v models n log]. simpl in H. subst v.
  reflexivity.
Qed.

(** X20. Choosing a model writes it back: for a model other than [Manual]
    and not empty, with a configuration at hand, the dialog closes once,
    logs one event for the model, and the preferred model read from the
    configuration afterwards is the model chosen. *)
Theorem select_then_preferred (d : Dialog) (c : Config) (model : jsstring) :
  config d = Some c ->
  model <> lit "Manual" -> model <> lit "" ->
  preferredModel (handleSelect model d) = model /\
  closed (handleSelect model d) = S (closed d) /\
  logged (handleSelect model d) = logged d ++ [model] /\
  view (handleSelect model d) = view d.
Proof.
  intros Hc Hm He. unfold handleSelect.
  apply eqb_neq in Hm. rewrite Hm, Hc.
  repeat split. unfold preferredModel. cbn [config option_map setModel getModel].
  destruct model; [now elim He | reflexivity].
Qed.

(** X21. In Ollama mode, as long as no model is listed, the main view lists
    one item, of value [loading], that is selected first; choosing it
    closes the dialog and writes [loading] to the configuration as the
    model. *)
Theorem ollama_placeholder (d : Dialog) :
  isOllama d = true -> ollamaModels d = [] -> view d = main ->
  map value (options d) = [lit "loading"] /\
  initialIndex d = 0 /\
  option_map getModel (config (handleSelect (lit "loading") d))
  = Some (lit "loading") /\
  closed (handleSelect (lit "loading") d) = S (closed d).
Proof.
  intros Ho Hm Hv.
  assert (Hopt : options d =
                 [{| value := lit "loading";
                     title := lit "Loading Ollama models...";
                     description := None; key := lit "loading" |}]).
  { unfold options, mainOptions. now rewrite Hv, Ho, Hm. }
  split; [now rewrite Hopt|]. split.
  - unfold initialIndex. rewrite Hopt, Hv. cbn [findIndex value].
    destruct (eqb (lit "loading") (preferredModel d)); reflexivity.
  - unfold handleSelect, isOllama in *.
    destruct (config d) as [c|]; [|discriminate]. now split.
Qed.

End Claims.

End ModelDialogFacts.

(* ================================================================= *)
(** ** The further properties on the scripted backend *)

Module MoreRuns.

Import Demo DemoMore.

Lemma stream_line_whitespace_witness :
  whitespace (lit "  ") /\ whitespace [13%N] /\
  @stream_line platform
    (lit "  " ++ json (String.append "data: " frame_text_stop) ++ [13%N])
  = [text_chunk (lit "lo") (Some (lit "STOP"))].
Proof.
  assert (H1 : whitespace (lit "  ")) by (repeat constructor).
  assert (H2 : whitespace [13%N]) by (repeat constructor).
  split; [exact H1|]. split; [exact H2|].
  rewrite (@stream_line_whitespace platform _ _ _ H1 H2).
  vm_compute; reflexivity.
Defined.

Lemma stream_loop_unfinished_line_witness :
  line_feeds (bytes (String.append "data: " frame_text_stop)) = 0 /\
  @stream_loop platform stream_init
    ([bytes stream_body] ++ [bytes (String.append "data: " frame_text_stop)])
  = @stream_loop platform stream_init [bytes stream_body].
Proof.
  assert (H : line_feeds (bytes (String.append "data: " frame_text_stop)) = 0)
    by (vm_compute; reflexivity).
  split; [exact H|].
  exact (@stream_loop_unfinished_line platform [bytes stream_body] _ H).
Defined.

Lemma generateContentStream_no_body_witness :
  resp_body (response 200 "OK" "" None) = None /\
  fst (@generateContentStream platform generator (ask "llama3") (lit "p1")
         (start [response 200 "OK" "" None]))
  = Throw (Error (lit "No response body from Ollama")).
Proof.
  split; [reflexivity|].
  now rewrite (@generateContentStream_no_body platform generator
                 (ask "llama3") (lit "p1")
                 (start [response 200 "OK" "" None])
                 (response 200 "OK" "" None) [] eq_refl eq_refl eq_refl).
Defined.

Lemma generateContentStream_body_witness :
  fst (@generateContentStream platform generator (ask "llama3") (lit "p1")
         (start [response 200 "OK" ""
                   (Some [firstn 50 (bytes stream_body);
                          skipn 50 (bytes stream_body)])]))
  = Ok [text_chunk (lit "Hel") None;
        text_chunk (lit "lo") (Some (lit "STOP"))].
Proof.
  rewrite (@generateContentStream_body platform generator
             (ask "llama3") (lit "p1")
             (start [response 200 "OK" ""
                       (Some [firstn 50 (bytes stream_body);
                              skipn 50 (bytes stream_body)])])
             _ [] _ eq_refl eq_refl eq_refl).
  vm_compute; reflexivity.
Defined.

Lemma generateContent_unreadable_body_witness :
  @parseCompletion platform (resp_text (response 200 "OK" "<html>" None))
    = None /\
  fst (@generateContent platform generator (ask "llama3") (lit "p1")
         (start [response 200 "OK" "<html>" None]))
  = Throw SyntaxError.
Proof.
  split; [reflexivity|].
  now rewrite (@generateContent_unreadable_body platform generator
                 (ask "llama3") (lit "p1")
                 (start [response 200 "OK" "<html>" None])
                 (response 200 "OK" "<html>" None) [] eq_refl eq_refl eq_refl).
Defined.

Lemma embedContent_unreadable_body_witness :
  @embedContent platform generator three_texts (start unreadable_script) =
  (Throw SyntaxError,
   @Build_Net platform [response 200 "OK" "{}" None]
     (map (embedding_request generator (lit "nomic-embed-text"))
          [lit "a"; lit "b"])).
Proof.
  assert (Ha : Forall (@embedding_answer platform)
                 [response 200 "OK" "{'data':[{'embedding':[1,2]}]}" None]).
  { repeat constructor; eexists; reflexivity. }
  exact (@embedContent_unreadable_body platform generator three_texts
           (start unreadable_script)
           [lit "a"] (lit "b") [lit "c"]
           [response 200 "OK" "{'data':[{'embedding':[1,2]}]}" None]
           [response 200 "OK" "<html>" None; response 200 "OK" "{}" None]
           (response 200 "OK" "<html>" None)
           [response 200 "OK" "{}" None]
           eq_refl eq_refl Ha eq_refl eq_refl eq_refl).
Defined.

Lemma embedContent_no_text_witness :
  @embedContent platform generator no_text (start embed_script)
  = (Ok {| embeddings := [] |}, start embed_script).
Proof.
  exact (@embedContent_no_text platform generator no_text
           (start embed_script) eq_refl).
Defined.

Lemma embedContent_one_per_text_witness :
  fst (@embedContent platform generator three_texts (start full_script))
  = Ok {| embeddings := [{| values := [1%Q; 2%Q] |}; {| values := [3%Q] |};
                         {| values := [1%Q; 2%Q] |}] |}.
Proof.
  assert (Hv : Forall2 (@embedding_vector platform) full_script
                 [{| values := [1%Q; 2%Q] |}; {| values := [3%Q] |};
                  {| values := [1%Q; 2%Q] |}]).
  { repeat constructor; do 2 eexists; split; reflexivity. }
  exact (proj1 (@embedContent_one_per_text platform generator three_texts
                  (start full_script) full_script [] _ eq_refl Hv)).
Defined.

Import ModelDialog.

Lemma initialIndex_in_bounds_witness :
  view flash_dialog = main /\
  @initialIndex core flash_dialog < length (@options core flash_dialog).
Proof.
  split; [reflexivity|].
  apply (@ModelDialogFacts.initialIndex_in_bounds core). now left.
Defined.

Lemma initialIndex_selects_witness :
  nth_error (@options core flash_dialog) (@initialIndex core flash_dialog)
    = Some manual_item
  /\ value manual_item = lit "Manual"
  /\ nth_error (@options core llama_dialog) (@initialIndex core llama_dialog)
     = Some llama_item
  /\ value llama_item = @preferredModel core llama_dialog.
Proof.
  split; [reflexivity|]. split; [|split; [reflexivity|]].
  - apply (proj2 (@ModelDialogFacts.initialIndex_selects core
                    flash_dialog manual_item eq_refl)).
    + intros o [<-|[<-|[]]]; discriminate.
    + reflexivity.
    + reflexivity.
  - apply (proj1 (@ModelDialogFacts.initialIndex_selects core
                    llama_dialog llama_item eq_refl)).
    exists llama_item. split; [right; left; reflexivity | reflexivity].
Defined.

Lemma manual_then_escape_witness :
  @onKeypress (lit "escape")
    (@handleSelect (lit "Manual")
       (opened (Some (gemini_config "gemini-2.5-pro")) []))
  = opened (Some (gemini_config "gemini-2.5-pro")) [].
Proof.
  exact (@ModelDialogFacts.manual_then_escape
           (opened (Some (gemini_config "gemini-2.5-pro")) []) eq_refl).
Defined.

Lemma select_then_preferred_witness :
  @preferredModel core
    (@handleSelect (lit "mistral")
       (opened (Some (ollama_config "llama3")) [lit "mistral"; lit "llama3"]))
  = lit "mistral".
Proof.
  refine (proj1 (@ModelDialogFacts.select_then_preferred core
                   (opened (Some (ollama_config "llama3"))
                           [lit "mistral"; lit "llama3"])
                   (ollama_config "llama3") (lit "mistral") eq_refl _ _));
    discriminate.
Defined.

Lemma ollama_placeholder_witness :
  option_map getModel
    (config (@handleSelect (lit "loading")
               (opened (Some (ollama_config "llama3")) [])))
  = Some (lit "loading").
Proof.
  exact (proj1 (proj2 (proj2
           (@ModelDialogFacts.ollama_placeholder core
              (opened (Some (ollama_config "llama3")) [])
              eq_refl eq_refl eq_refl)))).
Defined.

End MoreRuns.
